(** * chatbot_builder.py: the rule matcher and the context assembly

    A shallow embedding of the decision logic of [src/chatbot_builder.py]:
    the rule table of [RuleBasedChatbot] (an insertion-ordered Python dict),
    its first-match [get_response], the message assembly of
    [AIChatbot.get_response], and the turn handler of [main].

    Conventions.
    - A Python [str] is a [string]; a [dict] whose iteration order matters
      is an association list kept in insertion order with unique keys.
    - A call that can raise returns a [result]; [random.choice] takes the
      index drawn by the random source as an explicit argument.
    - The regular-expression engine, [str.lower] and the remote backend are
      library code: the program is stated over an arbitrary engine and
      backend (Section variables), and module [PyRe] gives a concrete
      engine for the syntax the rule tables of the source use. *)

From Stdlib Require Import List String Ascii Bool Arith Lia QArith.
Import ListNotations.
Close Scope Q_scope.
Open Scope string_scope.
Open Scope list_scope.

Set Implicit Arguments.

(** ** Python values *)

(** The exceptions the modelled code can raise. *)
Inductive exn : Type :=
| ReError      (* re.error: the pattern does not compile *)
| IndexError   (* random.choice on an empty sequence *).

Inductive result (A : Type) : Type :=
| Ok (a : A)
| Raise (e : exn).

Arguments Ok {A} a.
Arguments Raise {A} e.

Definition bind {A B : Type} (r : result A) (k : A -> result B) : result B :=
  match r with
  | Ok a => k a
  | Raise e => Raise e
  end.

(** [l[-n:]] for [n > 0]: the last [n] elements, all of them when the list
    is shorter. *)
Definition last_n {A : Type} (n : nat) (l : list A) : list A :=
  skipn (List.length l - n) l.

(** [random.choice(seq)] with the drawn number made explicit: the element
    at index [draw mod len(seq)]; an empty sequence raises [IndexError]. *)
Definition random_choice {A : Type} (draw : nat) (seq : list A) : result A :=
  match seq with
  | [] => Raise IndexError
  | _ :: _ =>
      match nth_error seq (draw mod List.length seq) with
      | Some x => Ok x
      | None => Raise IndexError
      end
  end.

(** ** Insertion-ordered dictionaries with string keys *)

Module Dict.

Definition t (V : Type) : Type := list (string * V).

Definition keys {V : Type} (d : t V) : list string := map fst d.

Fixpoint get {V : Type} (k : string) (d : t V) : option V :=
  match d with
  | [] => None
  | (k', v) :: d' => if String.eqb k k' then Some v else get k d'
  end.

(** [d[k] = v]: an existing key keeps its position and takes the new
    value; a new key is appended at the end. *)
Fixpoint set {V : Type} (k : string) (v : V) (d : t V) : t V :=
  match d with
  | [] => [(k, v)]
  | (k', v') :: d' =>
      if String.eqb k k' then (k', v) :: d' else (k', v') :: set k v d'
  end.

(** [{**base, **overlay}]: the items of [overlay] are assigned, in order,
    into a copy of [base]. *)
Definition merge {V : Type} (base overlay : t V) : t V :=
  fold_left (fun d kv => set (fst kv) (snd kv) d) overlay base.

(** [d.get(k, default)] *)
Definition get_default {V : Type} (k : string) (default : V) (d : t V) : V :=
  match get k d with
  | Some v => v
  | None => default
  end.

End Dict.

(** ** Library code the program calls *)

(** [re] and [str.lower].  [re.search(pattern, text)] compiles [pattern]
    (raising [re.error] when it is malformed, whatever the text) and then
    scans [text] for a match at any position. *)
Class ReEngine : Type := {
  compiled : Type;
  re_compile : string -> option compiled;
  compiled_search : compiled -> string -> bool;
  str_lower : string -> string
}.

Definition re_search {E : ReEngine} (pattern text : string) : result bool :=
  match re_compile pattern with
  | Some c => Ok (compiled_search c text)
  | None => Raise ReError
  end.

(** A chat message, the dict [{"role": ..., "content": ...}]. *)
Record chat_message : Type := Message {
  role : string;
  content : string
}.

(** The keyword arguments of [client.chat.completions.create]. *)
Record request : Type := Request {
  model : string;
  messages : list chat_message;
  max_tokens : nat;
  temperature : Q
}.

(** What the backend call does: it returns a response, of which the code
    reads the [message.content] of each of [choices], or it raises an
    [Exception] [e], of which the code reads [str(e)]. *)
Inductive outcome : Type :=
| Completion (choices : list string)
| Failed (description : string).

(** [OpenAI(api_key=k).chat.completions.create(...)]: one call of the
    method and what the caller gets from it.  How many requests the
    client library sends for one call (it resends on its own after some
    failures) is not represented. *)
Class Backend : Type := {
  create : string -> request -> outcome
}.

(** ** CHATBOT_TEMPLATES *)

Record template_data : Type := Template {
  t_name : string;
  t_description : string;
  t_rules : Dict.t (list string);
  t_personality : string
}.

Definition CHATBOT_TEMPLATES : Dict.t template_data :=
  [ ("customer_support",
     Template "Customer Support Bot"
       "Handles basic customer inquiries and support requests"
       [ ("\b(order|tracking|delivery)\b",
          [ "I can help you track your order! Please provide your order number.";
            "Let me check on your delivery status. What's your order ID?" ]);
         ("\b(return|refund)\b",
          [ "I understand you'd like to return an item. Our return policy allows returns within 30 days.";
            "For refunds, please contact our billing department or visit our returns page." ]);
         ("\b(hours|open|closed)\b",
          [ "Our customer service is available 24/7 through this chat!";
            "We're here to help anytime! Our phone support is available 9 AM - 6 PM EST." ]) ]
       "professional");
    ("educational_tutor",
     Template "Educational Tutor Bot"
       "Helps students learn with explanations and encouragement"
       [ ("\b(math|algebra|calculus)\b",
          [ "Math is fun! What specific topic would you like help with?";
            "I love helping with math problems! Show me what you're working on." ]);
         ("\b(science|physics|chemistry)\b",
          [ "Science is fascinating! What experiment or concept interests you?";
            "Let's explore science together! What would you like to learn about?" ]);
         ("\b(homework|assignment)\b",
          [ "I'm here to help guide you through your homework, not do it for you! What do you need help understanding?";
            "Let's work through this step by step. What part of the assignment is challenging?" ]) ]
       "educational");
    ("restaurant_bot",
     Template "Restaurant Assistant"
       "Takes orders and provides menu information"
       [ ("\b(menu|food|eat|order)\b",
          [ "Our menu includes pizza, burgers, salads, and daily specials!";
            "What would you like to order today? We have fresh ingredients!" ]);
         ("\b(hours|open|closed)\b",
          [ "We're open Monday-Sunday, 11 AM - 10 PM!";
            "Our kitchen closes at 9:30 PM, but you can still order until then!" ]);
         ("\b(reservation|table|book)\b",
          [ "I'd be happy to help with reservations! How many people and what time?";
            "Let me check our availability. What day were you thinking?" ]) ]
       "helpful") ].

(** ** class RuleBasedChatbot *)

Module RuleBasedChatbot.

Record t : Type := Bot {
  rules : Dict.t (list string);
  name : string;
  default_responses : list string
}.

Definition default_rules : Dict.t (list string) :=
  [ ("\b(hello|hi|hey)\b",
     [ "Hello! How can I help you today?";
       "Hi there! What can I do for you?";
       "Hey! How's it going?" ]);
    ("\b(bye|goodbye|see you)\b",
     [ "Goodbye! Have a great day!";
       "See you later!";
       "Take care!" ]);
    ("\bname\b",
     [ "I'm a rule-based chatbot created to help you learn!";
       "My name is RuleBot. Nice to meet you!" ]);
    ("\b(thanks|thank you)\b",
     [ "You're welcome!";
       "Happy to help!";
       "No problem!" ]);
    ("\b(help|what can you do)\b",
     [ "I can respond to basic greetings, questions about my name, and simple conversations!";
       "I'm a simple rule-based bot. Try saying hello, asking my name, or saying goodbye!" ]) ].

Definition fallback_responses : list string :=
  [ "I'm not sure I understand. Can you rephrase that?";
    "That's interesting! Tell me more.";
    "I'm still learning. Can you ask me something else?";
    "Hmm, I don't have a good response for that yet." ].

(** [__init__(self, template=None)], over the two tables it reads: the
    global [CHATBOT_TEMPLATES] and its local [default_rules].
    [template and template in CHATBOT_TEMPLATES]: [None] and the empty
    string are falsy. *)
Definition init_from (templates : Dict.t template_data)
           (base : Dict.t (list string)) (template : option string) : t :=
  match template with
  | Some tname =>
      if String.eqb tname "" then Bot base "RuleBot" fallback_responses
      else
        match Dict.get tname templates with
        | Some template_data =>
            Bot (Dict.merge base (t_rules template_data))
                (t_name template_data) fallback_responses
        | None => Bot base "RuleBot" fallback_responses
        end
  | None => Bot base "RuleBot" fallback_responses
  end.

Definition init (template : option string) : t :=
  init_from CHATBOT_TEMPLATES default_rules template.

(** [bot.rules[pattern] = responses] *)
Definition set_rule (pattern : string) (responses : list string) (bot : t) : t :=
  Bot (Dict.set pattern responses (rules bot)) (name bot) (default_responses bot).

Section Matching.
Context {E : ReEngine}.

(** The [for pattern, responses in self.rules.items()] loop followed
    by the fallback [return]. *)
Fixpoint scan (items : Dict.t (list string)) (fallback : list string)
         (message_lower : string) (draw : nat) : result string :=
  match items with
  | [] => random_choice draw fallback
  | (pattern, responses) :: rest =>
      bind (re_search pattern message_lower) (fun found =>
        if found then random_choice draw responses
        else scan rest fallback message_lower draw)
  end.

Definition get_response (bot : t) (message : string) (draw : nat) : result string :=
  let message_lower := str_lower message in
  scan (rules bot) (default_responses bot) message_lower draw.

(** The specification's reading of the loop: rule number [i] of the
    table, [(pattern, responses)], is the first rule whose pattern
    matches [text] when its pattern is found in [text] and the pattern
    of every rule before it is searched for and not found. *)
Definition first_match (items : Dict.t (list string)) (text : string)
           (i : nat) (pattern : string) (responses : list string) : Prop :=
  nth_error items i = Some (pattern, responses)
  /\ re_search pattern text = Ok true
  /\ forall j q rs, j < i -> nth_error items j = Some (q, rs) ->
                    re_search q text = Ok false.

(** No rule of the table matches [text]. *)
Definition no_match (items : Dict.t (list string)) (text : string) : Prop :=
  Forall (fun item => re_search (fst item) text = Ok false) items.

End Matching.

End RuleBasedChatbot.

(** ** class AIChatbot *)

Module AIChatbot.

Record t : Type := Bot {
  personality_prompts : Dict.t string;
  personality : string;
  client : option string   (* [OpenAI(api_key=k)] is [Some k] *)
}.

Definition prompts : Dict.t string :=
  [ ("helpful", "You are a helpful and friendly assistant. Provide clear, useful responses.");
    ("creative", "You are a creative and imaginative assistant. Use vivid language and creative examples.");
    ("professional", "You are a professional business assistant. Be formal and direct in your responses.");
    ("funny", "You are a witty and humorous assistant. Add appropriate humor to your responses.");
    ("educational", "You are an educational tutor. Explain concepts clearly and ask follow-up questions.") ].

(** [api_key and api_key != "sk-default-key"], on the value of
    [os.getenv("OPENAI_API_KEY")] ([None] when the variable is unset). *)
Definition configured (api_key : option string) : bool :=
  match api_key with
  | None => false
  | Some k => negb (String.eqb k "") && negb (String.eqb k "sk-default-key")
  end.

(** [__init__(self, personality="helpful")], reading the environment. *)
Definition init (api_key : option string) (personality : string) : t :=
  Bot prompts personality
      (match api_key with
       | Some k => if configured api_key then Some k else None
       | None => None
       end).

Definition no_key_message : string :=
  "🔑 Please add your OpenAI API key in the sidebar to use the AI chatbot!".

(** The f-string of the [except Exception as e] handler. *)
Definition error_message (description : string) : string :=
  "Sorry, I encountered an error: " ++ description ++ ". Please check your API key.".

(** The list built between [messages = [...]] and [messages.append]. *)
Definition build_messages (system_prompt message : string)
           (context : option (list chat_message)) : list chat_message :=
  let messages := [Message "system" system_prompt] in
  let messages :=
    match context with
    | Some ((_ :: _) as ctx) => messages ++ last_n 10 ctx
    | _ => messages
    end in
  messages ++ [Message "user" message].

(** The system prompt [get_response] computes for a bot built by
    [__init__] with personality [p]. *)
Definition system_prompt_of (p : string) : string :=
  Dict.get_default p
    "You are a helpful and friendly assistant. Provide clear, useful responses."
    prompts.

(** The keyword arguments [get_response] passes for such a bot. *)
Definition request_of (p message : string)
           (context : option (list chat_message)) : request :=
  Request "gpt-5" (build_messages (system_prompt_of p) message context)
          200 (7 # 10)%Q.

Section Responding.
Context {B : Backend}.

(** [get_response(self, message, context=None)]: the reply, and the
    requests sent to the backend while computing it.  An exception
    raised inside the [try] is represented by its [str(e)]. *)
Definition get_response (bot : t) (message : string)
           (context : option (list chat_message)) : string * list request :=
  match client bot with
  | None => (no_key_message, [])
  | Some key =>
      match Dict.get "helpful" (personality_prompts bot) with
      | None => (error_message "'helpful'", [])        (* KeyError *)
      | Some helpful =>
          let system_prompt :=
            Dict.get_default (personality bot) helpful (personality_prompts bot) in
          let req :=
            Request "gpt-5" (build_messages system_prompt message context)
                    200 (7 # 10)%Q in
          match create key req with
          | Completion (reply :: _) => (reply, [req])
          | Completion [] =>                            (* choices[0] *)
              (error_message "list index out of range", [req])
          | Failed description => (error_message description, [req])
          end
      end
  end.

End Responding.

End AIChatbot.

(** ** main: the session state and one rerun of the script *)

Record custom_rule : Type := CustomRule {
  cr_pattern : string;
  cr_response : string
}.

(** The entries of [st.session_state] that the turn logic reads. *)
Record session_state : Type := Session {
  ss_messages : list chat_message;
  current_bot : string;
  custom_rules : list custom_rule;
  bot_personality : string
}.

Definition initial_state : session_state :=
  Session [] "rule_based" [] "helpful".

Definition truthy (s : string) : bool := negb (String.eqb s "").

(** The sidebar's
    [if st.button("Add Rule") and pattern and response: ...append(...)]. *)
Definition add_rule (clicked : bool) (pattern response : string)
           (s : session_state) : session_state :=
  if clicked && truthy pattern && truthy response then
    Session (ss_messages s) (current_bot s)
            (custom_rules s ++ [CustomRule pattern response])
            (bot_personality s)
  else s.

(** The "Clear Conversation" button. *)
Definition clear_conversation (s : session_state) : session_state :=
  Session [] (current_bot s) (custom_rules s) (bot_personality s).

Definition append_message (m : chat_message) (s : session_state) : session_state :=
  Session (ss_messages s ++ [m]) (current_bot s) (custom_rules s) (bot_personality s).

(** [for custom_rule in custom_rules: bot.rules[pattern] = [response]] *)
Definition apply_custom_rules (crs : list custom_rule)
           (bot : RuleBasedChatbot.t) : RuleBasedChatbot.t :=
  fold_left (fun b cr => RuleBasedChatbot.set_rule (cr_pattern cr) [cr_response cr] b)
            crs bot.

(** [msg["role"] in ["user", "assistant"]] *)
Definition chat_role (m : chat_message) : bool :=
  String.eqb (role m) "user" || String.eqb (role m) "assistant".

(** The context handed to [AIChatbot.get_response] by [main]. *)
Definition build_context (msgs : list chat_message) : list chat_message :=
  filter chat_role (last_n 10 msgs).

Definition custom_reply : string := "🚧 Custom bot functionality coming soon!".

Section Main.
Context {E : ReEngine} {B : Backend}.

(** The dispatch on [current_bot], run on the state that already holds
    the new user message. *)
Definition respond (api_key : option string) (s : session_state)
           (user_input : string) (draw : nat) : result (string * list request) :=
  if String.eqb (current_bot s) "rule_based" then
    let bot := RuleBasedChatbot.init None in
    let bot := apply_custom_rules (custom_rules s) bot in
    bind (RuleBasedChatbot.get_response bot user_input draw)
         (fun response => Ok (response, []))
  else if String.eqb (current_bot s) "ai_powered" then
    let bot := AIChatbot.init api_key (bot_personality s) in
    let context := build_context (ss_messages s) in
    Ok (AIChatbot.get_response bot user_input (Some context))
  else
    Ok (custom_reply, []).

(** What one submitted turn leaves behind. *)
Record turn : Type := Turn {
  state_after : session_state;
  calls : list request;
  raised : option exn
}.

(** The [if user_input:] block. *)
Definition submit_turn (api_key : option string) (s : session_state)
           (user_input : string) (draw : nat) : turn :=
  if truthy user_input then
    let s1 := append_message (Message "user" user_input) s in
    match respond api_key s1 user_input draw with
    | Ok (response, sent) =>
        Turn (append_message (Message "assistant" response) s1) sent None
    | Raise e => Turn s1 [] (Some e)
    end
  else Turn s [] None.

End Main.

(** ** A concrete engine for the patterns of the rule tables

    The syntax covered is the one the tables of the source are written
    in: literal characters, backslash-escaped punctuation, the word
    boundary [\b], groups and alternation, over ASCII text.  [compile]
    answers [None] where [re.compile] raises [re.error] for this syntax (a
    group left open, a closing parenthesis without its opening one, a
    pattern ending in a backslash); it also answers [None] on the other
    constructs of [re] (classes, repetition, anchors, letter and digit
    escapes other than [\b]), which it does not cover.  The general
    theorems below hold for every engine; this one is evaluated only on
    patterns within the covered syntax. *)

Module PyRe.

Inductive regex : Type :=
| Empty
| Lit (c : ascii)
| WordBoundary
| Cat (r1 r2 : regex)
| Or (r1 r2 : regex).

Definition in_range (lo hi c : ascii) : bool :=
  Nat.leb (nat_of_ascii lo) (nat_of_ascii c) && Nat.leb (nat_of_ascii c) (nat_of_ascii hi).

Definition is_upper (c : ascii) : bool := in_range "A" "Z" c.

Definition is_alnum (c : ascii) : bool :=
  in_range "a" "z" c || in_range "A" "Z" c || in_range "0" "9" c.

(** [\w] on ASCII: letters, digits and the underscore. *)
Definition is_word (c : ascii) : bool := is_alnum c || Ascii.eqb c "_".

Definition lower_char (c : ascii) : ascii :=
  if is_upper c then ascii_of_nat (nat_of_ascii c + 32) else c.

Fixpoint lower (s : string) : string :=
  match s with
  | EmptyString => EmptyString
  | String c s' => String (lower_char c) (lower s')
  end.

(** Characters with a meaning of their own that is not covered. *)
Definition uncovered (c : ascii) : bool :=
  existsb (Ascii.eqb c) ["."; "*"; "+"; "?"; "["; "]"; "{"; "}"; "^"; "$"]%char.

(** The branches collected so far and the current one, as one
    alternation. *)
Definition close (alts : list regex) (cur : regex) : regex :=
  fold_right Or cur alts.

(** One pass over the pattern; [stack] holds the enclosing groups, each
    with its finished branches and the sequence read before the group
    was opened. *)
Fixpoint parse (p : string) (alts : list regex) (cur : regex)
         (stack : list (list regex * regex)) : option regex :=
  match p with
  | EmptyString =>
      match stack with
      | [] => Some (close alts cur)
      | _ :: _ => None                       (* missing ) *)
      end
  | String c p' =>
      if Ascii.eqb c "(" then parse p' [] Empty ((alts, cur) :: stack)
      else if Ascii.eqb c ")" then
        match stack with
        | [] => None                         (* unbalanced parenthesis *)
        | (alts', cur') :: stack' =>
            parse p' alts' (Cat cur' (close alts cur)) stack'
        end
      else if Ascii.eqb c "|" then parse p' (alts ++ [cur]) Empty stack
      else if Ascii.eqb c "\" then
        match p' with
        | EmptyString => None                (* bad escape (end of pattern) *)
        | String e p'' =>
            if Ascii.eqb e "b" then parse p'' alts (Cat cur WordBoundary) stack
            else if is_alnum e then None
            else parse p'' alts (Cat cur (Lit e)) stack
        end
      else if uncovered c then None
      else parse p' alts (Cat cur (Lit c)) stack
  end.

Definition compile (p : string) : option regex := parse p [] Empty [].

(** A position in the text: the character before it, if any, and the
    text from it on. *)
Definition position : Type := (option ascii * string)%type.

Definition word_before (x : position) : bool :=
  match fst x with Some c => is_word c | None => false end.

Definition word_after (x : position) : bool :=
  match snd x with String c _ => is_word c | EmptyString => false end.

(** The positions at which a match of [r] started at [x] can end. *)
Fixpoint ends (r : regex) (x : position) : list position :=
  match r with
  | Empty => [x]
  | Lit c =>
      match snd x with
      | String c' s' => if Ascii.eqb c c' then [(Some c', s')] else []
      | EmptyString => []
      end
  | WordBoundary => if xorb (word_before x) (word_after x) then [x] else []
  | Cat r1 r2 => flat_map (ends r2) (ends r1 x)
  | Or r1 r2 => ends r1 x ++ ends r2 x
  end.

Definition match_at (r : regex) (x : position) : bool :=
  match ends r x with [] => false | _ :: _ => true end.

Fixpoint search_from (r : regex) (prev : option ascii) (s : string) : bool :=
  match_at r (prev, s)
  || match s with
     | EmptyString => false
     | String c s' => search_from r (Some c) s'
     end.

Definition search (r : regex) (text : string) : bool := search_from r None text.

#[export] Instance engine : ReEngine := {
  compiled := regex;
  re_compile := compile;
  compiled_search := search;
  str_lower := lower
}.

End PyRe.

(** ** Backends used in the examples *)

(** A backend that cannot be reached. *)
Definition offline : Backend :=
  {| create := fun _ _ => Failed "Connection error." |}.

(** A backend that answers with the content of the last message sent. *)
Definition echo : Backend :=
  {| create := fun _ req =>
       Completion [content (last (messages req) (Message "user" ""))] |}.

(** The number of entries of a message list that carry a given role. *)
Definition count_role (r : string) (msgs : list chat_message) : nat :=
  List.length (filter (fun m => String.eqb (role m) r) msgs).

(** ** The rest of main: widgets, reruns and the statistics panel *)

(** [st.session_state.current_bot = bot_type] *)
Definition select_bot (bot_type : string) (s : session_state) : session_state :=
  Session (ss_messages s) bot_type (custom_rules s) (bot_personality s).

(** [st.session_state.bot_personality = personality] *)
Definition select_personality (personality : string)
           (s : session_state) : session_state :=
  Session (ss_messages s) (current_bot s) (custom_rules s) personality.

(** What the user can do to a session.  One rerun of the script is a
    sequence of these, in the order of the script: the type selection,
    the configuration of that type, the clear button, the chat input. *)
Inductive event : Type :=
| SelectBot (bot_type : string)
| SelectPersonality (personality : string)
| AddRule (clicked : bool) (pattern response : string)
| ClearConversation
| ChatInput (api_key : option string) (user_input : string) (draw : nat).

Definition handle {E : ReEngine} {B : Backend}
           (s : session_state) (ev : event) : session_state :=
  match ev with
  | SelectBot bot_type => select_bot bot_type s
  | SelectPersonality personality => select_personality personality s
  | AddRule clicked pattern response => add_rule clicked pattern response s
  | ClearConversation => clear_conversation s
  | ChatInput api_key user_input draw =>
      state_after (submit_turn api_key s user_input draw)
  end.

(** The session after a sequence of events, from the initial values of
    [st.session_state]. *)
Definition run {E : ReEngine} {B : Backend} (events : list event) : session_state :=
  fold_left handle events initial_state.

(** The "Chat Stats" panel: [total_messages], [user_messages],
    [bot_messages]. *)
Definition chat_stats (msgs : list chat_message) : nat * nat * nat :=
  (List.length msgs,
   List.length (filter (fun m => String.eqb (role m) "user") msgs),
   List.length (filter (fun m => String.eqb (role m) "assistant") msgs)).

(** What holds of every session the events can produce: the messages
    carry the two chat roles only, there are at most as many assistant
    messages as user messages, and no custom rule has an empty pattern or
    an empty response. *)
Definition session_ok (s : session_state) : Prop :=
  Forall (fun m => chat_role m = true) (ss_messages s)
  /\ count_role "assistant" (ss_messages s) <= count_role "user" (ss_messages s)
  /\ Forall (fun cr => cr_pattern cr <> "" /\ cr_response cr <> "")
            (custom_rules s).

(** * Properties *)

(** ** Slices and random choice *)

Lemma last_n_length {A : Type} (n : nat) (l : list A) :
  List.length (last_n n l) = Nat.min n (List.length l).
Proof.
  unfold last_n. rewrite length_skipn. lia.
Qed.

Lemma last_n_short {A : Type} (n : nat) (l : list A) :
  List.length l <= n -> last_n n l = l.
Proof.
  intros Hle. unfold last_n.
  replace (List.length l - n) with 0 by lia. reflexivity.
Qed.

Lemma last_n_snoc {A : Type} (n : nat) (l : list A) (x : A) :
  last_n (S n) (l ++ [x]) = last_n n l ++ [x].
Proof.
  unfold last_n. rewrite length_app. simpl.
  replace (List.length l + 1 - S n) with (List.length l - n) by lia.
  rewrite skipn_app.
  replace (List.length l - n - List.length l) with 0 by lia.
  reflexivity.
Qed.

Lemma last_n_incl {A : Type} (n : nat) (l : list A) : incl (last_n n l) l.
Proof.
  unfold last_n. intros x Hx.
  rewrite <- (firstn_skipn (List.length l - n) l).
  apply in_or_app. now right.
Qed.

Lemma filter_length_le {A : Type} (f : A -> bool) (l : list A) :
  List.length (filter f l) <= List.length l.
Proof.
  induction l as [|a l IH]; simpl; [lia|].
  destruct (f a); simpl; lia.
Qed.

Lemma random_choice_in {A : Type} (draw : nat) (seq : list A) :
  seq <> [] -> exists x, random_choice draw seq = Ok x /\ In x seq.
Proof.
  intros Hne. destruct seq as [|a seq]; [congruence|].
  unfold random_choice.
  destruct (nth_error (a :: seq) (draw mod List.length (a :: seq))) as [x|] eqn:E.
  - exists x. split; [reflexivity|]. eapply nth_error_In; eassumption.
  - apply nth_error_None in E.
    pose proof (Nat.mod_upper_bound draw (List.length (a :: seq))) as Hlt.
    simpl in *. lia.
Qed.

Lemma random_choice_reaches {A : Type} (seq : list A) (x : A) :
  In x seq -> exists draw, random_choice draw seq = Ok x.
Proof.
  intros Hin. destruct (In_nth_error _ _ Hin) as [i Hi].
  exists i. destruct seq as [|a seq]; [destruct Hin|].
  unfold random_choice.
  assert (Hlt : i < List.length (a :: seq)).
  { apply nth_error_Some. congruence. }
  rewrite Nat.mod_small by exact Hlt. now rewrite Hi.
Qed.


(** ** Dictionaries *)

Module DictFacts.
Import Dict.

Section Facts.
Context {V : Type}.
Implicit Types (d base overlay : Dict.t V) (k : string) (v : V).

Lemma get_none_iff k d : get k d = None <-> ~ In k (keys d).
Proof.
  induction d as [|[k' v'] d IH]; simpl.
  - tauto.
  - destruct (String.eqb_spec k k') as [->|Hne].
    + split; [discriminate|]. intros Hn. exfalso. apply Hn. now left.
    + rewrite IH. split.
      * intros Hn [He|Hi]; [congruence|tauto].
      * tauto.
Qed.

Lemma get_some_in k v d : get k d = Some v -> In (k, v) d.
Proof.
  induction d as [|[k' v'] d IH]; simpl; [discriminate|].
  destruct (String.eqb_spec k k') as [->|Hne].
  - intros [= ->]. now left.
  - intros Hg. right. auto.
Qed.

Lemma get_set_same k v d : get k (set k v d) = Some v.
Proof.
  induction d as [|[k' v'] d IH]; simpl.
  - now rewrite String.eqb_refl.
  - destruct (String.eqb_spec k k') as [->|Hne]; simpl.
    + now rewrite String.eqb_refl.
    + destruct (String.eqb_spec k k'); [congruence|exact IH].
Qed.

Lemma get_set_other k k0 v d : k0 <> k -> get k0 (set k v d) = get k0 d.
Proof.
  intros Hne. induction d as [|[k' v'] d IH]; simpl.
  - destruct (String.eqb_spec k0 k); [congruence|reflexivity].
  - destruct (String.eqb_spec k k') as [->|Hne']; simpl.
    + destruct (String.eqb_spec k0 k'); [congruence|reflexivity].
    + destruct (String.eqb_spec k0 k'); [reflexivity|exact IH].
Qed.

(** Assigning to a key that is present changes neither the keys nor
    their order. *)
Lemma keys_set_present k v d : In k (keys d) -> keys (set k v d) = keys d.
Proof.
  induction d as [|[k' v'] d IH]; simpl; [tauto|].
  intros Hin. destruct (String.eqb_spec k k') as [->|Hne]; simpl.
  - reflexivity.
  - f_equal. apply IH. destruct Hin; [congruence|assumption].
Qed.

(** Assigning to a new key appends it. *)
Lemma set_absent k v d : ~ In k (keys d) -> set k v d = d ++ [(k, v)].
Proof.
  induction d as [|[k' v'] d IH]; simpl; [reflexivity|].
  intros Hn. destruct (String.eqb_spec k k') as [->|Hne].
  - exfalso. apply Hn. now left.
  - f_equal. apply IH. tauto.
Qed.

Lemma length_set_present k v d :
  In k (keys d) -> List.length (set k v d) = List.length d.
Proof.
  intros Hin. rewrite <- (length_map fst (set k v d)), <- (length_map fst d).
  change (List.length (keys (set k v d)) = List.length (keys d)).
  now rewrite keys_set_present.
Qed.

Lemma NoDup_keys_set k v d : NoDup (keys d) -> NoDup (keys (set k v d)).
Proof.
  intros Hnd. destruct (in_dec string_dec k (keys d)) as [Hin|Hn].
  - now rewrite keys_set_present.
  - rewrite set_absent by assumption. unfold keys. rewrite map_app. simpl.
    apply NoDup_incl_NoDup with (l := k :: map fst d).
    + constructor; assumption.
    + rewrite length_app. simpl. lia.
    + intros x Hx. apply in_or_app. simpl in *. tauto.
Qed.

Lemma NoDup_keys_merge base overlay :
  NoDup (keys base) -> NoDup (keys (merge base overlay)).
Proof.
  unfold merge. revert base.
  induction overlay as [|[k v] overlay IH]; simpl; intros base Hnd.
  - assumption.
  - apply IH. now apply NoDup_keys_set.
Qed.

(** A key the overlay does not have keeps the value of the base. *)
Lemma get_merge_absent k base overlay :
  get k overlay = None -> get k (merge base overlay) = get k base.
Proof.
  unfold merge. revert base.
  induction overlay as [|[k' v'] overlay IH]; simpl; intros base Hg.
  - reflexivity.
  - destruct (String.eqb_spec k k') as [->|Hne]; [discriminate|].
    rewrite IH by assumption. now apply get_set_other.
Qed.

(** A key of the overlay takes the overlay's value. *)
Lemma get_merge_present k v base overlay :
  NoDup (keys overlay) -> get k overlay = Some v ->
  get k (merge base overlay) = Some v.
Proof.
  unfold merge. revert base.
  induction overlay as [|[k' v'] overlay IH]; simpl; intros base Hnd Hg.
  - discriminate.
  - inversion Hnd as [|? ? Hnotin Hnd']; subst.
    destruct (String.eqb_spec k k') as [->|Hne].
    + injection Hg as ->.
      change (get k' (merge (set k' v base) overlay) = Some v).
      rewrite get_merge_absent by now apply get_none_iff.
      apply get_set_same.
    + now apply IH.
Qed.

Lemma keys_set_incl k v d : incl (keys d) (keys (set k v d)).
Proof.
  destruct (in_dec string_dec k (keys d)) as [Hin|Hn].
  - rewrite keys_set_present by assumption. apply incl_refl.
  - rewrite set_absent by assumption. unfold keys. rewrite map_app.
    apply incl_appl, incl_refl.
Qed.

(** Merging removes no key of the base. *)
Lemma keys_merge_base base overlay :
  incl (keys base) (keys (merge base overlay)).
Proof.
  unfold merge. revert base.
  induction overlay as [|[k v] overlay IH]; simpl; intros base.
  - apply incl_refl.
  - eapply incl_tran; [apply keys_set_incl | apply IH].
Qed.

Lemma get_in_keys k v d : get k d = Some v -> In k (keys d).
Proof.
  intros Hg. destruct (in_dec string_dec k (keys d)) as [Hin|Hn].
  - assumption.
  - apply get_none_iff in Hn. congruence.
Qed.

(** In a table with unique keys a key that is present occurs once. *)
Lemma count_occ_keys k d :
  NoDup (keys d) -> In k (keys d) -> count_occ string_dec (keys d) k = 1.
Proof.
  intros Hnd Hin.
  pose proof (proj1 (NoDup_count_occ string_dec (keys d)) Hnd k) as Hle.
  pose proof (proj1 (count_occ_In string_dec (keys d) k) Hin) as Hpos.
  lia.
Qed.

End Facts.
End DictFacts.

(** ** The rule matcher *)

Section RuleFacts.
Context {E : ReEngine}.
Import RuleBasedChatbot.

Lemma scan_no_match items fallback text draw :
  no_match items text ->
  scan items fallback text draw = random_choice draw fallback.
Proof.
  induction 1 as [|[p rs] items Hp _ IH]; simpl.
  - reflexivity.
  - simpl in Hp. rewrite Hp. simpl. exact IH.
Qed.

Lemma first_match_tail q rs0 items text i pattern responses :
  first_match ((q, rs0) :: items) text (S i) pattern responses ->
  re_search q text = Ok false /\ first_match items text i pattern responses.
Proof.
  intros (Hnth & Hhit & Hbefore). split.
  - apply (Hbefore 0 q rs0); [lia|reflexivity].
  - repeat split; try assumption.
    intros j q' rs' Hj Hn. apply (Hbefore (S j) q' rs'); [lia|exact Hn].
Qed.

Lemma scan_first_match items fallback text draw i pattern responses :
  first_match items text i pattern responses ->
  scan items fallback text draw = random_choice draw responses.
Proof.
  revert i. induction items as [|[q rs0] items IH]; intros i Hfm.
  - destruct Hfm as (Hnth & _). destruct i; discriminate.
  - destruct i as [|i].
    + destruct Hfm as (Hnth & Hhit & _). injection Hnth as -> ->.
      simpl. rewrite Hhit. reflexivity.
    + apply first_match_tail in Hfm. destruct Hfm as (Hq & Hfm).
      simpl. rewrite Hq. simpl. eapply IH. eassumption.
Qed.

Lemma first_match_unique items text i p rs i' p' rs' :
  first_match items text i p rs ->
  first_match items text i' p' rs' ->
  i' = i /\ p' = p /\ rs' = rs.
Proof.
  intros (Hn & Hh & Hb) (Hn' & Hh' & Hb').
  assert (Hi : i' = i).
  { destruct (Nat.lt_trichotomy i i') as [Hlt|[Heq|Hgt]].
    - specialize (Hb' i p rs Hlt Hn). congruence.
    - congruence.
    - specialize (Hb i' p' rs' Hgt Hn'). congruence. }
  subst i'. rewrite Hn in Hn'. injection Hn' as -> ->. auto.
Qed.

(** When every pattern compiles and no reply list is empty the loop
    returns a reply. *)
Lemma scan_returns items fallback text draw :
  Forall (fun item => re_compile (fst item) <> None /\ snd item <> []) items ->
  fallback <> [] ->
  exists reply, scan items fallback text draw = Ok reply.
Proof.
  intros Hall Hfb. induction Hall as [|[p rs] items [Hc Hne] _ IH]; simpl.
  - destruct (random_choice_in draw Hfb) as (x & Hx & _). eauto.
  - simpl in Hc, Hne. unfold re_search.
    destruct (re_compile p) as [c|]; [|congruence]. simpl.
    destruct (compiled_search c text).
    + destruct (random_choice_in draw Hne) as (x & Hx & _). eauto.
    + exact IH.
Qed.

Lemma apply_custom_rules_default_responses crs bot :
  default_responses (apply_custom_rules crs bot) = default_responses bot.
Proof.
  unfold apply_custom_rules. revert bot.
  induction crs as [|cr crs IH]; simpl; intros bot; [reflexivity|].
  now rewrite IH.
Qed.

Lemma init_default_responses templates base template :
  default_responses (init_from templates base template) = fallback_responses.
Proof.
  unfold init_from. destruct template as [tname|]; [|reflexivity].
  destruct (String.eqb tname ""); [reflexivity|].
  destruct (Dict.get tname templates); reflexivity.
Qed.

End RuleFacts.

(** ** The rule table *)

Section TableFacts.
Import RuleBasedChatbot.




(** Every reply list of a table built by [main] is non-empty. *)
Lemma apply_custom_rules_nonempty crs bot :
  Forall (fun item => snd item <> []) (rules bot) ->
  Forall (fun item : string * list string => snd item <> [])
         (rules (apply_custom_rules crs bot)).
Proof.
  unfold apply_custom_rules. revert bot.
  induction crs as [|cr crs IH]; simpl; intros bot Hall; [assumption|].
  apply IH. simpl. clear IH.
  induction Hall as [|[k v] d Hv Hd IHd]; simpl.
  - constructor; [simpl; discriminate|constructor].
  - destruct (String.eqb (cr_pattern cr) k).
    + constructor; [simpl; discriminate|assumption].
    + constructor; assumption.
Qed.

Lemma default_rules_nonempty :
  Forall (fun item : string * list string => snd item <> []) default_rules.
Proof.
  repeat constructor; simpl; discriminate.
Qed.


End TableFacts.

(** C5.  Loading a template merges its rules over the base table: a
    pattern of the template gets exactly the template's reply list in the
    merged table, whether the base had the pattern (the base list is
    replaced, nothing is concatenated, and the pattern still occurs once)
    or not (the pattern is added); a base pattern the template does not
    have keeps its base replies. *)
Theorem template_overlay_replaces
        (templates : Dict.t template_data) (base : Dict.t (list string))
        (tname : string) (data : template_data)
        (pattern : string) (replies : list string) :
  tname <> "" ->
  Dict.get tname templates = Some data ->
  NoDup (Dict.keys base) ->
  NoDup (Dict.keys (t_rules data)) ->
  Dict.get pattern (t_rules data) = Some replies ->
  Dict.get pattern (RuleBasedChatbot.rules
                      (RuleBasedChatbot.init_from templates base (Some tname)))
  = Some replies
  /\ count_occ string_dec
       (Dict.keys (RuleBasedChatbot.rules
                     (RuleBasedChatbot.init_from templates base (Some tname))))
       pattern = 1
  /\ (forall q, Dict.get q (t_rules data) = None ->
        Dict.get q (RuleBasedChatbot.rules
                      (RuleBasedChatbot.init_from templates base (Some tname)))
        = Dict.get q base).
Proof.
  intros Hname Htpl Hbase Hover Hget.
  unfold RuleBasedChatbot.init_from.
  destruct (String.eqb_spec tname "") as [->|_]; [congruence|].
  rewrite Htpl. simpl.
  assert (Hm : Dict.get pattern (Dict.merge base (t_rules data)) = Some replies)
    by now apply DictFacts.get_merge_present.
  repeat split.
  - exact Hm.
  - apply DictFacts.count_occ_keys.
    + now apply DictFacts.NoDup_keys_merge.
    + eapply DictFacts.get_in_keys. exact Hm.
  - intros q Hq. now apply DictFacts.get_merge_absent.
Qed.

Lemma template_overlay_replaces_witness :
  Dict.get "P"
    (RuleBasedChatbot.rules
       (RuleBasedChatbot.init_from
          [("pack", Template "Pack" "An overlay" [("P", ["C"])] "helpful")]
          [("P", ["A"; "B"])] (Some "pack")))
  = Some ["C"]
  /\ count_occ string_dec
       (Dict.keys
          (RuleBasedChatbot.rules
             (RuleBasedChatbot.init_from
                [("pack", Template "Pack" "An overlay" [("P", ["C"])] "helpful")]
                [("P", ["A"; "B"])] (Some "pack"))))
       "P" = 1
  /\ (forall q, Dict.get q [("P", ["C"])] = None ->
        Dict.get q
          (RuleBasedChatbot.rules
             (RuleBasedChatbot.init_from
                [("pack", Template "Pack" "An overlay" [("P", ["C"])] "helpful")]
                [("P", ["A"; "B"])] (Some "pack")))
        = Dict.get q [("P", ["A"; "B"])]).
Proof.
  apply (template_overlay_replaces
           [("pack", Template "Pack" "An overlay" [("P", ["C"])] "helpful")]
           [("P", ["A"; "B"])]
           (tname := "pack")
           (data := Template "Pack" "An overlay" [("P", ["C"])] "helpful")).
  - discriminate.
  - reflexivity.
  - simpl. repeat constructor. simpl. tauto.
  - simpl. repeat constructor. simpl. tauto.
  - reflexivity.
Defined.

(** The templates of the source share no pattern with the base table, so
    loading one appends its three rules after the five base rules. *)
Lemma customer_support_rules :
  RuleBasedChatbot.rules (RuleBasedChatbot.init (Some "customer_support"))
  = RuleBasedChatbot.default_rules
    ++ [ ("\b(order|tracking|delivery)\b",
          [ "I can help you track your order! Please provide your order number.";
            "Let me check on your delivery status. What's your order ID?" ]);
         ("\b(return|refund)\b",
          [ "I understand you'd like to return an item. Our return policy allows returns within 30 days.";
            "For refunds, please contact our billing department or visit our returns page." ]);
         ("\b(hours|open|closed)\b",
          [ "Our customer service is available 24/7 through this chat!";
            "We're here to help anytime! Our phone support is available 9 AM - 6 PM EST." ]) ].
Proof. reflexivity. Qed.

(** X17.  [get_response] lower-cases the input and scans the table in
    its order: when the pattern of rule [i] is found in the lower-cased
    text and the pattern of every rule before it compiles and is not
    found, the reply is [random.choice] over the reply list of rule [i],
    so it is one of that rule's replies for every draw and each of them
    is returned for some draw; the matched rule itself does not depend on
    the draw, since such a rule is unique. *)
Theorem first_match_wins {E : ReEngine}
        (bot : RuleBasedChatbot.t) (message : string)
        (i : nat) (pattern : string) (responses : list string) :
  RuleBasedChatbot.first_match (RuleBasedChatbot.rules bot) (str_lower message)
                               i pattern responses ->
  responses <> [] ->
  (forall draw,
      RuleBasedChatbot.get_response bot message draw = random_choice draw responses
      /\ exists reply,
           RuleBasedChatbot.get_response bot message draw = Ok reply
           /\ In reply responses)
  /\ (forall reply, In reply responses ->
        exists draw, RuleBasedChatbot.get_response bot message draw = Ok reply)
  /\ (forall i' pattern' responses',
        RuleBasedChatbot.first_match (RuleBasedChatbot.rules bot)
                                     (str_lower message) i' pattern' responses' ->
        i' = i /\ pattern' = pattern /\ responses' = responses).
Proof.
  intros Hfm Hne.
  assert (Heq : forall draw,
             RuleBasedChatbot.get_response bot message draw
             = random_choice draw responses).
  { intros draw. unfold RuleBasedChatbot.get_response.
    eapply scan_first_match. exact Hfm. }
  repeat split.
  - apply Heq.
  - rewrite Heq. destruct (random_choice_in draw Hne) as (x & Hx & Hin). eauto.
  - intros reply Hin. destruct (random_choice_reaches _ _ Hin) as [draw Hd].
    exists draw. now rewrite Heq.
  - eapply first_match_unique; eassumption.
  - eapply first_match_unique; eassumption.
  - eapply first_match_unique; eassumption.
Qed.

Lemma first_match_wins_witness :
  (forall draw,
      RuleBasedChatbot.get_response (E := PyRe.engine)
        (RuleBasedChatbot.init None) "What is your NAME" draw
      = random_choice draw
          [ "I'm a rule-based chatbot created to help you learn!";
            "My name is RuleBot. Nice to meet you!" ]
      /\ exists reply,
           RuleBasedChatbot.get_response (E := PyRe.engine)
             (RuleBasedChatbot.init None) "What is your NAME" draw = Ok reply
           /\ In reply
                [ "I'm a rule-based chatbot created to help you learn!";
                  "My name is RuleBot. Nice to meet you!" ])
  /\ (forall reply,
        In reply
           [ "I'm a rule-based chatbot created to help you learn!";
             "My name is RuleBot. Nice to meet you!" ] ->
        exists draw,
          RuleBasedChatbot.get_response (E := PyRe.engine)
            (RuleBasedChatbot.init None) "What is your NAME" draw = Ok reply)
  /\ (forall i' pattern' responses',
        RuleBasedChatbot.first_match (E := PyRe.engine)
          (RuleBasedChatbot.rules (RuleBasedChatbot.init None))
          (str_lower (ReEngine := PyRe.engine) "What is your NAME")
          i' pattern' responses' ->
        i' = 2 /\ pattern' = "\bname\b"
        /\ responses'
           = [ "I'm a rule-based chatbot created to help you learn!";
               "My name is RuleBot. Nice to meet you!" ]).
Proof.
  apply (first_match_wins (E := PyRe.engine) (RuleBasedChatbot.init None)
                          "What is your NAME" (i := 2) (pattern := "\bname\b")).
  - split; [reflexivity|]. split; [vm_compute; reflexivity|].
    intros j q rs Hj Hn.
    destruct j as [|[|j]]; [| |lia];
      injection Hn as <- <-; vm_compute; reflexivity.
  - discriminate.
Defined.

(** C6 fails when a pattern that does not compile stands before the
    first rule whose pattern matches.  After the user adds the rules "("
    and "zzz", the table has seven rules; on the input "zzz" the five base
    patterns are not found, the search for "(" raises [re.error], and
    "zzz", rule 6, is the only pattern found.  The scan stops at "(":
    for every draw [get_response] raises and returns no reply of rule 6. *)
Theorem malformed_rule_blocks_first_match :
  nth_error
    (RuleBasedChatbot.rules
       (apply_custom_rules
          (custom_rules (add_rule true "zzz" "Sleepy?"
                           (add_rule true "(" "oops" initial_state)))
          (RuleBasedChatbot.init None))) 6
  = Some ("zzz", ["Sleepy?"])
  /\ map (fun item => re_search (E := PyRe.engine) (fst item)
                                (str_lower (ReEngine := PyRe.engine) "zzz"))
         (RuleBasedChatbot.rules
            (apply_custom_rules
               (custom_rules (add_rule true "zzz" "Sleepy?"
                                (add_rule true "(" "oops" initial_state)))
               (RuleBasedChatbot.init None)))
     = [Ok false; Ok false; Ok false; Ok false; Ok false; Raise ReError; Ok true]
  /\ (forall draw,
        RuleBasedChatbot.get_response (E := PyRe.engine)
          (apply_custom_rules
             (custom_rules (add_rule true "zzz" "Sleepy?"
                              (add_rule true "(" "oops" initial_state)))
             (RuleBasedChatbot.init None))
          "zzz" draw
        = Raise ReError).
Proof.
  split; [reflexivity|]. split; [vm_compute; reflexivity|].
  intros draw. vm_compute. reflexivity.
Qed.

(** X18.  When the pattern of every rule of the table compiles and is not
    found in the lower-cased input, [get_response] returns one of the
    four fallback replies, whatever the template the bot was built from
    and whatever rules the user added. *)
Theorem no_match_gives_fallback {E : ReEngine}
        (template : option string) (crs : list custom_rule)
        (message : string) (draw : nat) :
  RuleBasedChatbot.no_match
    (RuleBasedChatbot.rules
       (apply_custom_rules crs (RuleBasedChatbot.init template)))
    (str_lower message) ->
  exists reply,
    RuleBasedChatbot.get_response
      (apply_custom_rules crs (RuleBasedChatbot.init template)) message draw
    = Ok reply
    /\ In reply
         [ "I'm not sure I understand. Can you rephrase that?";
           "That's interesting! Tell me more.";
           "I'm still learning. Can you ask me something else?";
           "Hmm, I don't have a good response for that yet." ].
Proof.
  intros Hno. unfold RuleBasedChatbot.get_response.
  rewrite (scan_no_match _ draw Hno).
  rewrite apply_custom_rules_default_responses.
  unfold RuleBasedChatbot.init. rewrite init_default_responses.
  apply random_choice_in. discriminate.
Qed.

Lemma no_match_gives_fallback_witness :
  exists reply,
    RuleBasedChatbot.get_response (E := PyRe.engine)
      (apply_custom_rules [CustomRule "\bpizza\b" "I love pizza!"]
                          (RuleBasedChatbot.init None))
      "Tell me a story" 6
    = Ok reply
    /\ In reply
         [ "I'm not sure I understand. Can you rephrase that?";
           "That's interesting! Tell me more.";
           "I'm still learning. Can you ask me something else?";
           "Hmm, I don't have a good response for that yet." ].
Proof.
  apply (no_match_gives_fallback (E := PyRe.engine) None
           [CustomRule "\bpizza\b" "I love pizza!"] "Tell me a story" 6).
  repeat constructor.
Defined.

(** C7 fails when the table holds a pattern that does not compile.
    After the user adds the rule "weather)", no pattern of the table
    matches the input "How are you": the five base patterns are not
    found and the search for "weather)" raises [re.error].  For every
    draw [get_response] raises instead of returning a fallback reply,
    and the turn ends without one. *)
Theorem malformed_rule_blocks_fallback :
  map (fun item => re_search (E := PyRe.engine) (fst item)
                             (str_lower (ReEngine := PyRe.engine) "How are you"))
      (RuleBasedChatbot.rules
         (apply_custom_rules
            (custom_rules (add_rule true "weather)" "Sunny!" initial_state))
            (RuleBasedChatbot.init None)))
  = [Ok false; Ok false; Ok false; Ok false; Ok false; Raise ReError]
  /\ (forall draw,
        RuleBasedChatbot.get_response (E := PyRe.engine)
          (apply_custom_rules
             (custom_rules (add_rule true "weather)" "Sunny!" initial_state))
             (RuleBasedChatbot.init None))
          "How are you" draw
        = Raise ReError)
  /\ (forall draw,
        submit_turn (E := PyRe.engine) (B := offline) None
          (add_rule true "weather)" "Sunny!" initial_state) "How are you" draw
        = Turn (Session [Message "user" "How are you"] "rule_based"
                        [CustomRule "weather)" "Sunny!"] "helpful")
               [] (Some ReError)).
Proof.
  split; [vm_compute; reflexivity|].
  split; intros draw; vm_compute; reflexivity.
Qed.




(** C2 (amended).  The add step compiles nothing and rejects nothing: a
    non-empty pattern with a non-empty reply is appended to the custom
    rules as it is.  When every pattern of the table [main] then builds
    compiles, [get_response] returns a reply for every input text, so no
    pattern-compilation failure is raised. *)
Theorem add_rule_unchecked {E : ReEngine}
        (s : session_state) (pattern response message : string) (draw : nat) :
  pattern <> "" -> response <> "" ->
  custom_rules (add_rule true pattern response s)
  = custom_rules s ++ [CustomRule pattern response]
  /\ (Forall (fun p => re_compile p <> None)
             (Dict.keys
                (RuleBasedChatbot.rules
                   (apply_custom_rules
                      (custom_rules (add_rule true pattern response s))
                      (RuleBasedChatbot.init None)))) ->
      exists reply,
        RuleBasedChatbot.get_response
          (apply_custom_rules (custom_rules (add_rule true pattern response s))
                              (RuleBasedChatbot.init None))
          message draw
        = Ok reply).
Proof.
  intros Hp Hr.
  assert (Hadd : custom_rules (add_rule true pattern response s)
                 = custom_rules s ++ [CustomRule pattern response]).
  { unfold add_rule, truthy.
    destruct (String.eqb_spec pattern ""); [congruence|].
    destruct (String.eqb_spec response ""); [congruence|]. reflexivity. }
  split; [exact Hadd|].
  intros Hall. unfold RuleBasedChatbot.get_response.
  apply scan_returns.
  - unfold Dict.keys in Hall. rewrite Forall_map in Hall.
    apply Forall_and; [exact Hall|].
    apply apply_custom_rules_nonempty. exact default_rules_nonempty.
  - rewrite apply_custom_rules_default_responses. discriminate.
Qed.

Lemma add_rule_unchecked_witness :
  custom_rules (add_rule true "\bpizza\b" "I love pizza!" initial_state)
  = custom_rules initial_state ++ [CustomRule "\bpizza\b" "I love pizza!"]
  /\ exists reply,
       RuleBasedChatbot.get_response (E := PyRe.engine)
         (apply_custom_rules
            (custom_rules
               (add_rule true "\bpizza\b" "I love pizza!" initial_state))
            (RuleBasedChatbot.init None))
         "Pizza, please" 0
       = Ok reply.
Proof.
  destruct (@add_rule_unchecked PyRe.engine initial_state
              "\bpizza\b" "I love pizza!" "Pizza, please" 0)
    as [Hadd Hreply]; [discriminate|discriminate|].
  split; [exact Hadd|].
  apply Hreply. repeat constructor; discriminate.
Defined.

(** C2, as stated, fails: the pattern "(" does not compile, the add step
    accepts it all the same, and the failure is raised at match time. *)
Lemma malformed_pattern_counterexample :
  re_compile (ReEngine := PyRe.engine) "(" = None
  /\ custom_rules (add_rule true "(" "oops" initial_state)
     = [CustomRule "(" "oops"]
  /\ RuleBasedChatbot.get_response (E := PyRe.engine)
       (apply_custom_rules (custom_rules (add_rule true "(" "oops" initial_state))
                           (RuleBasedChatbot.init None))
       "zzz" 0
     = Raise ReError.
Proof.
  repeat split; vm_compute; reflexivity.
Qed.

(** C3 fails in rule-based mode: with a user rule whose pattern does not
    compile, a turn whose text matches none of the rules before it ends in
    [re.error]; the user message was appended, no reply is. *)
Theorem malformed_rule_drops_turn :
  submit_turn (E := PyRe.engine) (B := offline) None
    (add_rule true "(food" "I love talking about food!" initial_state)
    "I like pizza" 0
  = Turn (Session [Message "user" "I like pizza"] "rule_based"
                  [CustomRule "(food" "I love talking about food!"] "helpful")
         [] (Some ReError).
Proof.
  vm_compute. reflexivity.
Qed.

(** ** The generative responder *)

Section ResponderFacts.
Context {B : Backend}.
Import AIChatbot.

Lemma configured_cases (api_key : option string) :
  configured api_key = false <->
  api_key = None \/ api_key = Some "" \/ api_key = Some "sk-default-key".
Proof.
  unfold configured. destruct api_key as [k|].
  - destruct (String.eqb_spec k "") as [->|H1]; simpl.
    + intuition.
    + destruct (String.eqb_spec k "sk-default-key") as [->|H2]; simpl.
      * intuition.
      * split; [discriminate|].
        intros [H|[H|H]]; try discriminate; injection H as ->; congruence.
  - intuition.
Qed.

Lemma init_client (api_key : option string) (p : string) :
  client (init api_key p)
  = if configured api_key then api_key else None.
Proof.
  unfold init. destruct api_key as [k|]; simpl; [|reflexivity].
  destruct (configured (Some k)); reflexivity.
Qed.

Lemma get_response_configured key p message context :
  configured (Some key) = true ->
  get_response (init (Some key) p) message context
  = match create key (request_of p message context) with
    | Completion (reply :: _) => (reply, [request_of p message context])
    | Completion [] =>
        (error_message "list index out of range", [request_of p message context])
    | Failed description =>
        (error_message description, [request_of p message context])
    end.
Proof.
  intros Hc. unfold get_response. rewrite init_client, Hc. reflexivity.
Qed.

Lemma get_response_calls api_key p message context :
  snd (get_response (init api_key p) message context)
  = if configured api_key then [request_of p message context] else [].
Proof.
  destruct (configured api_key) eqn:Hc.
  - destruct api_key as [key|]; [|discriminate].
    rewrite get_response_configured by assumption.
    destruct (create key (request_of p message context)) as [[|r rs]|d];
      reflexivity.
  - unfold get_response. rewrite init_client, Hc. reflexivity.
Qed.

Lemma build_messages_shape sys message context :
  build_messages sys message context
  = Message "system" sys
    :: last_n 10 (match context with Some ctx => ctx | None => [] end)
    ++ [Message "user" message].
Proof.
  unfold build_messages. destruct context as [[|m ctx]|]; reflexivity.
Qed.

(** Whatever the context, the list sent has between 2 and 12 entries. *)
Lemma build_messages_length sys message context :
  2 <= List.length (build_messages sys message context) <= 12.
Proof.
  rewrite build_messages_shape. cbn [List.length].
  rewrite length_app, last_n_length. cbn [List.length].
  pose proof (Nat.le_min_l 10
                (List.length match context with Some ctx => ctx | None => [] end)).
  lia.
Qed.

End ResponderFacts.

(** C8.  With no credential configured, the key being absent, empty or
    the placeholder, [get_response] returns the fixed message asking for
    a key and sends nothing to the backend, for every input and context. *)
Theorem unconfigured_returns_instruction {B : Backend}
        (api_key : option string) (personality message : string)
        (context : option (list chat_message)) :
  api_key = None \/ api_key = Some "" \/ api_key = Some "sk-default-key" ->
  AIChatbot.get_response (AIChatbot.init api_key personality) message context
  = ("🔑 Please add your OpenAI API key in the sidebar to use the AI chatbot!", []).
Proof.
  intros Hkey. apply configured_cases in Hkey.
  unfold AIChatbot.get_response. rewrite init_client, Hkey. reflexivity.
Qed.

Lemma unconfigured_returns_instruction_witness :
  AIChatbot.get_response (B := echo)
    (AIChatbot.init (Some "sk-default-key") "funny") "Tell me a joke"
    (Some [Message "user" "Hi"; Message "assistant" "Hello!"])
  = ("🔑 Please add your OpenAI API key in the sidebar to use the AI chatbot!", []).
Proof.
  apply (@unconfigured_returns_instruction echo (Some "sk-default-key") "funny"
           "Tell me a joke"
           (Some [Message "user" "Hi"; Message "assistant" "Hello!"])).
  right. right. reflexivity.
Defined.

(** C9.  When the backend call made by a configured responder raises,
    with description [description], [get_response] returns the string
    made of the fixed prefix, the description and the fixed suffix; the
    failure does not leave the call. *)
Theorem backend_failure_is_reported {B : Backend}
        (key personality message : string)
        (context : option (list chat_message)) (description : string) :
  AIChatbot.configured (Some key) = true ->
  (forall req,
      In req (snd (AIChatbot.get_response
                     (AIChatbot.init (Some key) personality) message context)) ->
      create key req = Failed description) ->
  fst (AIChatbot.get_response
         (AIChatbot.init (Some key) personality) message context)
  = ("Sorry, I encountered an error: " ++ description
     ++ ". Please check your API key.")%string.
Proof.
  intros Hc Hfail.
  rewrite get_response_calls, Hc in Hfail.
  specialize (Hfail _ (or_introl eq_refl)).
  rewrite get_response_configured by assumption.
  rewrite Hfail. reflexivity.
Qed.

Lemma backend_failure_is_reported_witness :
  fst (AIChatbot.get_response (B := offline)
         (AIChatbot.init (Some "sk-live-1234") "creative") "Write a poem" None)
  = ("Sorry, I encountered an error: " ++ "Connection error."
     ++ ". Please check your API key.")%string.
Proof.
  apply (@backend_failure_is_reported offline "sk-live-1234" "creative"
           "Write a poem" None "Connection error.").
  - reflexivity.
  - intros req _. reflexivity.
Defined.

(** A response without choices is reported the same way, through the
    [IndexError] of [choices[0]]. *)
Lemma empty_choices_reported {B : Backend} key personality message context :
  AIChatbot.configured (Some key) = true ->
  create key (AIChatbot.request_of personality message context) = Completion [] ->
  fst (AIChatbot.get_response
         (AIChatbot.init (Some key) personality) message context)
  = "Sorry, I encountered an error: list index out of range. Please check your API key.".
Proof.
  intros Hc Hempty. rewrite get_response_configured by assumption.
  rewrite Hempty. reflexivity.
Qed.

(** ** The turn handler *)

Section TurnFacts.
Context {E : ReEngine} {B : Backend}.

Lemma chat_role_not_system (m : chat_message) :
  chat_role m = true -> String.eqb (role m) "system" = false.
Proof.
  unfold chat_role. intros Hr. apply orb_true_iff in Hr.
  destruct Hr as [Hr|Hr]; apply String.eqb_eq in Hr; rewrite Hr; reflexivity.
Qed.

Lemma count_role_system_filtered (l : list chat_message) :
  count_role "system" (filter chat_role l) = 0.
Proof.
  unfold count_role. induction l as [|m l IH]; simpl; [reflexivity|].
  destruct (chat_role m) eqn:Hr; [|exact IH].
  simpl. rewrite (chat_role_not_system _ Hr). exact IH.
Qed.

Lemma count_role_app r (l1 l2 : list chat_message) :
  count_role r (l1 ++ l2) = count_role r l1 + count_role r l2.
Proof.
  unfold count_role. now rewrite filter_app, length_app.
Qed.

Lemma build_context_length (msgs : list chat_message) :
  List.length (build_context msgs) <= 10.
Proof.
  unfold build_context.
  pose proof (filter_length_le chat_role (last_n 10 msgs)) as Hf.
  rewrite last_n_length in Hf.
  pose proof (Nat.le_min_l 10 (List.length msgs)). lia.
Qed.

(** The second truncation, inside the responder, removes nothing. *)
Lemma last_n_build_context (msgs : list chat_message) :
  last_n 10 (build_context msgs) = build_context msgs.
Proof.
  apply last_n_short, build_context_length.
Qed.

(** The context [main] builds ends with the message it has just
    appended. *)
Lemma build_context_snoc (msgs : list chat_message) (user_input : string) :
  build_context (msgs ++ [Message "user" user_input])
  = filter chat_role (last_n 9 msgs) ++ [Message "user" user_input].
Proof.
  unfold build_context. rewrite last_n_snoc, filter_app. reflexivity.
Qed.

Lemma build_context_incl (msgs : list chat_message) :
  incl (build_context msgs) msgs.
Proof.
  unfold build_context. intros m Hm. apply filter_In in Hm.
  apply (last_n_incl 10 msgs). tauto.
Qed.

(** The requests of a turn: one, in the generative mode with a
    configured key, and none otherwise. *)
Lemma submit_turn_calls api_key s user_input draw :
  calls (submit_turn api_key s user_input draw)
  = if truthy user_input
       && negb (String.eqb (current_bot s) "rule_based")
       && String.eqb (current_bot s) "ai_powered"
       && AIChatbot.configured api_key
    then [AIChatbot.request_of (bot_personality s) user_input
            (Some (build_context (ss_messages s ++ [Message "user" user_input])))]
    else [].
Proof.
  unfold submit_turn. destruct (truthy user_input); [|reflexivity].
  unfold respond. simpl.
  destruct (String.eqb (current_bot s) "rule_based").
  - simpl.
    destruct (RuleBasedChatbot.get_response _ user_input draw); reflexivity.
  - destruct (String.eqb (current_bot s) "ai_powered"); [|reflexivity].
    simpl.
    pose proof (get_response_calls api_key (bot_personality s) user_input
                  (Some (build_context
                           (ss_messages s ++ [Message "user" user_input]))))
      as Hc.
    destruct (AIChatbot.get_response _ user_input _) as [reply sent].
    simpl in *. exact Hc.
Qed.

End TurnFacts.

(** C4, on the code.  In the generative mode [main] appends the new user
    message to the session before it slices the context, and
    [get_response] appends it again: the list sent is the system entry,
    the chat-role entries among the last nine messages of the history,
    and then the new input twice. *)
Theorem new_input_sent_twice {E : ReEngine} {B : Backend}
        (api_key : option string) (s : session_state)
        (user_input : string) (draw : nat) :
  user_input <> "" ->
  current_bot s = "ai_powered" ->
  AIChatbot.configured api_key = true ->
  exists req,
    calls (submit_turn api_key s user_input draw) = [req]
    /\ messages req
       = Message "system" (AIChatbot.system_prompt_of (bot_personality s))
         :: filter chat_role (last_n 9 (ss_messages s))
         ++ [Message "user" user_input; Message "user" user_input].
Proof.
  intros Hin Hmode Hkey.
  rewrite submit_turn_calls, Hmode, Hkey. unfold truthy.
  destruct (String.eqb_spec user_input ""); [congruence|]. simpl.
  eexists. split; [reflexivity|].
  unfold AIChatbot.request_of. cbn [messages].
  rewrite build_messages_shape, last_n_build_context, build_context_snoc.
  rewrite <- app_assoc. reflexivity.
Qed.

Lemma new_input_sent_twice_witness :
  exists req,
    calls (submit_turn (E := PyRe.engine) (B := echo) (Some "sk-live-1234")
             (Session [] "ai_powered" [] "helpful") "hello" 0) = [req]
    /\ messages req
       = [ Message "system"
             "You are a helpful and friendly assistant. Provide clear, useful responses.";
           Message "user" "hello";
           Message "user" "hello" ].
Proof.
  apply (@new_input_sent_twice PyRe.engine echo (Some "sk-live-1234")
           (Session [] "ai_powered" [] "helpful") "hello" 0).
  - discriminate.
  - reflexivity.
  - reflexivity.
Defined.

(** C10.  Every request a turn sends to the backend carries a message
    list made of one system entry, then at most ten entries of the
    session's conversation, then one final user entry with the input; the
    system role occurs once in it, and its length is between 2 and 12
    however long the history is.  The middle part is the context [main]
    cut to the last ten messages, cut to the last ten again by the
    responder. *)
Theorem sent_messages_bounded {E : ReEngine} {B : Backend}
        (api_key : option string) (s : session_state)
        (user_input : string) (draw : nat) (req : request) :
  In req (calls (submit_turn api_key s user_input draw)) ->
  exists sys mid,
    messages req = Message "system" sys :: mid ++ [Message "user" user_input]
    /\ mid = last_n 10 (filter chat_role
                          (last_n 10 (ss_messages s ++ [Message "user" user_input])))
    /\ List.length mid <= 10
    /\ incl mid (ss_messages s ++ [Message "user" user_input])
    /\ count_role "system" (messages req) = 1
    /\ 2 <= List.length (messages req) <= 12.
Proof.
  rewrite submit_turn_calls.
  destruct (truthy user_input && negb (String.eqb (current_bot s) "rule_based")
            && String.eqb (current_bot s) "ai_powered"
            && AIChatbot.configured api_key); [|intros []].
  intros [<-|[]].
  set (msgs := ss_messages s ++ [Message "user" user_input]).
  exists (AIChatbot.system_prompt_of (bot_personality s)), (build_context msgs).
  unfold AIChatbot.request_of. cbn [messages].
  split.
  { rewrite build_messages_shape, last_n_build_context. reflexivity. }
  split.
  { symmetry. apply last_n_build_context. }
  split; [apply build_context_length|].
  split; [apply build_context_incl|].
  split.
  - rewrite build_messages_shape, last_n_build_context.
    change (Message "system" (AIChatbot.system_prompt_of (bot_personality s))
            :: build_context msgs ++ [Message "user" user_input])
      with ([Message "system" (AIChatbot.system_prompt_of (bot_personality s))]
            ++ build_context msgs ++ [Message "user" user_input]).
    rewrite !count_role_app. unfold build_context at 1.
    rewrite count_role_system_filtered. reflexivity.
  - apply build_messages_length.
Qed.

Lemma sent_messages_bounded_witness :
  exists sys mid,
    messages
      (AIChatbot.request_of "funny" "and then?"
         (Some (build_context
                  ([Message "user" "Tell me a joke";
                    Message "assistant" "Knock knock."]
                   ++ [Message "user" "and then?"]))))
    = Message "system" sys :: mid ++ [Message "user" "and then?"]
    /\ mid = last_n 10 (filter chat_role
                          (last_n 10 ([Message "user" "Tell me a joke";
                                       Message "assistant" "Knock knock."]
                                      ++ [Message "user" "and then?"])))
    /\ List.length mid <= 10
    /\ incl mid ([Message "user" "Tell me a joke";
                  Message "assistant" "Knock knock."]
                 ++ [Message "user" "and then?"])
    /\ count_role "system"
         (messages
            (AIChatbot.request_of "funny" "and then?"
               (Some (build_context
                        ([Message "user" "Tell me a joke";
                          Message "assistant" "Knock knock."]
                         ++ [Message "user" "and then?"]))))) = 1
    /\ 2 <= List.length
              (messages
                 (AIChatbot.request_of "funny" "and then?"
                    (Some (build_context
                             ([Message "user" "Tell me a joke";
                               Message "assistant" "Knock knock."]
                              ++ [Message "user" "and then?"]))))) <= 12.
Proof.
  apply (@sent_messages_bounded PyRe.engine echo (Some "sk-live-1234")
           (Session [Message "user" "Tell me a joke";
                     Message "assistant" "Knock knock."]
                    "ai_powered" [] "funny")
           "and then?" 0).
  vm_compute. left. reflexivity.
Defined.

(** The generative and the custom mode end every turn with a reply. *)
Lemma other_modes_reply {E : ReEngine} {B : Backend}
      (api_key : option string) (s : session_state)
      (user_input : string) (draw : nat) :
  user_input <> "" ->
  current_bot s <> "rule_based" ->
  exists reply,
    raised (submit_turn api_key s user_input draw) = None
    /\ ss_messages (state_after (submit_turn api_key s user_input draw))
       = ss_messages s ++ [Message "user" user_input; Message "assistant" reply].
Proof.
  intros Hin Hmode. unfold submit_turn, truthy.
  destruct (String.eqb_spec user_input ""); [congruence|]. simpl.
  unfold respond. simpl.
  destruct (String.eqb_spec (current_bot s) "rule_based"); [congruence|].
  destruct (String.eqb (current_bot s) "ai_powered").
  - destruct (AIChatbot.get_response _ user_input _) as [reply sent].
    exists reply. simpl. rewrite <- app_assoc. auto.
  - exists custom_reply. simpl. rewrite <- app_assoc. auto.
Qed.

(** X15.  So does the rule-based mode when every pattern of its table
    compiles: the turn raises nothing and appends the user message and a
    reply. *)
Lemma rule_based_reply {E : ReEngine} {B : Backend}
      (api_key : option string) (s : session_state)
      (user_input : string) (draw : nat) :
  user_input <> "" ->
  current_bot s = "rule_based" ->
  Forall (fun p => re_compile p <> None)
         (Dict.keys (RuleBasedChatbot.rules
                       (apply_custom_rules (custom_rules s)
                                           (RuleBasedChatbot.init None)))) ->
  exists reply,
    raised (submit_turn api_key s user_input draw) = None
    /\ ss_messages (state_after (submit_turn api_key s user_input draw))
       = ss_messages s ++ [Message "user" user_input; Message "assistant" reply].
Proof.
  intros Hin Hmode Hall.
  assert (Hret : exists reply,
             RuleBasedChatbot.get_response
               (apply_custom_rules (custom_rules s) (RuleBasedChatbot.init None))
               user_input draw = Ok reply).
  { unfold RuleBasedChatbot.get_response. apply scan_returns.
    - unfold Dict.keys in Hall. rewrite Forall_map in Hall.
      apply Forall_and; [exact Hall|].
      apply apply_custom_rules_nonempty. exact default_rules_nonempty.
    - rewrite apply_custom_rules_default_responses. discriminate. }
  destruct Hret as [reply Hret]. exists reply.
  unfold submit_turn, truthy.
  destruct (String.eqb_spec user_input ""); [congruence|]. cbn [negb].
  unfold respond. cbn [append_message current_bot custom_rules].
  rewrite Hmode, String.eqb_refl, Hret. cbn.
  rewrite <- app_assoc. auto.
Qed.

(** After "Clear Conversation" a generative turn sends the system entry
    and the new input, the latter twice. *)
Lemma cleared_conversation_request {E : ReEngine} {B : Backend}
      (api_key : option string) (s : session_state)
      (user_input : string) (draw : nat) :
  user_input <> "" ->
  current_bot s = "ai_powered" ->
  AIChatbot.configured api_key = true ->
  calls (submit_turn api_key (clear_conversation s) user_input draw)
  = [ Request "gpt-5"
        [ Message "system" (AIChatbot.system_prompt_of (bot_personality s));
          Message "user" user_input;
          Message "user" user_input ]
        200 (7 # 10)%Q ].
Proof.
  intros Hin Hmode Hkey. rewrite submit_turn_calls.
  cbn [clear_conversation current_bot bot_personality ss_messages].
  rewrite Hmode, Hkey. unfold truthy.
  destruct (String.eqb_spec user_input ""); [congruence|]. reflexivity.
Qed.

(** ** The examples of the specification *)

(** "hello there" against the base rules: the greeting rule, and one of
    its three replies. *)
Lemma hello_there_example (draw : nat) :
  RuleBasedChatbot.get_response (E := PyRe.engine)
    (RuleBasedChatbot.init None) "hello there" draw
  = random_choice draw
      [ "Hello! How can I help you today?";
        "Hi there! What can I do for you?";
        "Hey! How's it going?" ].
Proof. reflexivity. Qed.

(** "what is your return policy" under the customer-support template: the
    return/refund rule, and one of its two replies. *)
Lemma return_policy_example (draw : nat) :
  RuleBasedChatbot.get_response (E := PyRe.engine)
    (RuleBasedChatbot.init (Some "customer_support"))
    "what is your return policy" draw
  = random_choice draw
      [ "I understand you'd like to return an item. Our return policy allows returns within 30 days.";
        "For refunds, please contact our billing department or visit our returns page." ].
Proof. vm_compute. reflexivity. Qed.

(** * Further properties *)

(** ** Assignments into the rule table *)

Section TableOrder.
Import RuleBasedChatbot.

(** An assignment leaves every existing entry at its position, with its
    key; only the entry of the assigned key can change its value. *)
Lemma set_keeps_positions {V : Type} (k : string) (v : V) (d : Dict.t V) :
  forall i k' v',
    nth_error d i = Some (k', v') ->
    exists w, nth_error (Dict.set k v d) i = Some (k', w) /\ (k' <> k -> w = v').
Proof.
  induction d as [|[k0 v0] d IH]; intros i k' v' Hn.
  - destruct i; discriminate.
  - simpl. destruct (String.eqb_spec k k0) as [->|Hne].
    + destruct i as [|i]; simpl in *.
      * injection Hn as <- <-. exists v. split; [reflexivity|congruence].
      * exists v'. split; [assumption|reflexivity].
    + destruct i as [|i]; simpl in *.
      * injection Hn as <- <-. exists v0. split; reflexivity.
      * apply IH. assumption.
Qed.

Lemma length_set_le {V : Type} (k : string) (v : V) (d : Dict.t V) :
  List.length d <= List.length (Dict.set k v d).
Proof.
  induction d as [|[k0 v0] d IH]; simpl; [lia|].
  destruct (String.eqb k k0); simpl; lia.
Qed.

Lemma apply_keeps_positions (crs : list custom_rule) :
  forall (bot : t) i k v,
    nth_error (rules bot) i = Some (k, v) ->
    exists w,
      nth_error (rules (apply_custom_rules crs bot)) i = Some (k, w)
      /\ (~ In k (map cr_pattern crs) -> w = v).
Proof.
  unfold apply_custom_rules.
  induction crs as [|cr crs IH]; intros bot i k v Hn; simpl.
  - exists v. split; [assumption|reflexivity].
  - destruct (set_keeps_positions (cr_pattern cr) [cr_response cr] (rules bot) _ Hn)
      as (w0 & Hw0 & Hsame).
    destruct (IH (set_rule (cr_pattern cr) [cr_response cr] bot) i k w0 Hw0)
      as (w & Hw & Hsame').
    exists w. split; [exact Hw|].
    intros Hnot. rewrite Hsame'.
    + apply Hsame. intros ->. apply Hnot. now left.
    + intros Hin. apply Hnot. now right.
Qed.

(** Patterns no custom rule names keep their replies. *)
Lemma apply_custom_rules_get_other (crs : list custom_rule) (bot : t) (p : string) :
  ~ In p (map cr_pattern crs) ->
  Dict.get p (rules (apply_custom_rules crs bot)) = Dict.get p (rules bot).
Proof.
  unfold apply_custom_rules. revert bot.
  induction crs as [|cr crs IH]; intros bot Hnot; simpl; [reflexivity|].
  rewrite IH by (intros Hin; apply Hnot; now right).
  simpl. apply DictFacts.get_set_other.
  intros ->. apply Hnot. now left.
Qed.

Lemma set_nonempty (k : string) (v : list string) (d : Dict.t (list string)) :
  v <> [] ->
  Forall (fun item => snd item <> []) d ->
  Forall (fun item : string * list string => snd item <> []) (Dict.set k v d).
Proof.
  intros Hv Hall. induction Hall as [|[k0 v0] d H0 Hd IH]; simpl.
  - constructor; [exact Hv|constructor].
  - destruct (String.eqb k k0); constructor; assumption.
Qed.

Lemma merge_nonempty (base overlay : Dict.t (list string)) :
  Forall (fun item => snd item <> []) base ->
  Forall (fun item => snd item <> []) overlay ->
  Forall (fun item : string * list string => snd item <> [])
         (Dict.merge base overlay).
Proof.
  unfold Dict.merge. intros Hb Ho. revert base Hb.
  induction Ho as [|[k v] overlay Hv _ IH]; simpl; intros base Hb.
  - exact Hb.
  - apply IH. apply set_nonempty; assumption.
Qed.

(** Every reply list of every template of the source is non-empty. *)
Lemma templates_nonempty (tname : string) (data : template_data) :
  Dict.get tname CHATBOT_TEMPLATES = Some data ->
  Forall (fun item : string * list string => snd item <> []) (t_rules data).
Proof.
  intros Hg. apply DictFacts.get_some_in in Hg. simpl in Hg.
  destruct Hg as [Hg|[Hg|[Hg|[]]]]; injection Hg as _ <-;
    repeat constructor; simpl; discriminate.
Qed.

Lemma init_nonempty (template : option string) :
  Forall (fun item : string * list string => snd item <> [])
         (rules (init template)).
Proof.
  unfold init, init_from. destruct template as [tname|].
  - destruct (String.eqb tname ""); [exact default_rules_nonempty|].
    destruct (Dict.get tname CHATBOT_TEMPLATES) as [data|] eqn:Hg.
    + simpl. apply merge_nonempty; [exact default_rules_nonempty|].
      eapply templates_nonempty. eassumption.
    + exact default_rules_nonempty.
  - exact default_rules_nonempty.
Qed.

(** The order of a merged table: the keys of the base in their order,
    then the keys only the overlay has, in the overlay's order. *)
Lemma keys_merge {V : Type} (base overlay : Dict.t V) :
  NoDup (Dict.keys overlay) ->
  Dict.keys (Dict.merge base overlay)
  = Dict.keys base
    ++ filter (fun k => negb (existsb (String.eqb k) (Dict.keys base)))
              (Dict.keys overlay).
Proof.
  unfold Dict.merge. revert base.
  induction overlay as [|[k v] overlay IH]; intros base Hnd; simpl.
  - now rewrite app_nil_r.
  - inversion Hnd as [|? ? Hnotin Hnd']; subst.
    rewrite IH by assumption.
    destruct (existsb (String.eqb k) (Dict.keys base)) eqn:Hex; simpl.
    + assert (Hin : In k (Dict.keys base)).
      { apply existsb_exists in Hex. destruct Hex as (x & Hx & Heq).
        apply String.eqb_eq in Heq. now subst. }
      rewrite DictFacts.keys_set_present by assumption. reflexivity.
    + assert (Hn : ~ In k (Dict.keys base)).
      { intros Hin. apply Bool.not_true_iff_false in Hex. apply Hex.
        apply existsb_exists. exists k. split; [assumption|apply String.eqb_refl]. }
      rewrite DictFacts.set_absent by assumption.
      unfold Dict.keys at 1. rewrite map_app. simpl. rewrite <- app_assoc. simpl.
      f_equal. f_equal.
      apply filter_ext_in. intros x Hx.
      unfold Dict.keys. rewrite map_app, existsb_app. simpl.
      destruct (String.eqb_spec x k) as [->|Hne]; [contradiction|].
      now rewrite !orb_false_r.
Qed.

End TableOrder.

Section MatcherOrder.
Context {E : ReEngine}.
Import RuleBasedChatbot.

Lemma first_match_app (l1 l2 : Dict.t (list string)) text i p rs :
  first_match l1 text i p rs -> first_match (l1 ++ l2) text i p rs.
Proof.
  intros (Hn & Hh & Hb).
  assert (Hi : i < List.length l1) by (apply nth_error_Some; congruence).
  repeat split.
  - rewrite nth_error_app1 by exact Hi. exact Hn.
  - exact Hh.
  - intros j q rs0 Hj Hnj. rewrite nth_error_app1 in Hnj by lia. eauto.
Qed.

Lemma first_match_apply (crs : list custom_rule) (bot : t) text i p rs :
  first_match (rules bot) text i p rs ->
  exists rs',
    first_match (rules (apply_custom_rules crs bot)) text i p rs'
    /\ (~ In p (map cr_pattern crs) -> rs' = rs).
Proof.
  intros (Hn & Hh & Hb).
  destruct (apply_keeps_positions crs bot _ Hn) as (rs' & Hn' & Hsame).
  exists rs'. split; [|exact Hsame].
  repeat split; [exact Hn'|exact Hh|].
  intros j q rs0 Hj Hnj.
  assert (Hlen : j < List.length (rules bot)).
  { assert (i < List.length (rules bot)) by (apply nth_error_Some; congruence).
    lia. }
  destruct (nth_error (rules bot) j) as [[q0 v0]|] eqn:Hold.
  - destruct (apply_keeps_positions crs bot _ Hold) as (w & Hw & _).
    rewrite Hw in Hnj. injection Hnj as <- _. eapply Hb; eassumption.
  - apply nth_error_None in Hold. lia.
Qed.

Lemma scan_no_index_error items fallback text draw :
  Forall (fun item => snd item <> []) items ->
  fallback <> [] ->
  scan items fallback text draw <> Raise IndexError.
Proof.
  intros Hall Hfb. induction Hall as [|[p rs] items Hne _ IH]; simpl.
  - destruct (random_choice_in draw Hfb) as (x & Hx & _). congruence.
  - unfold re_search. destruct (re_compile p) as [c|]; simpl; [|discriminate].
    destruct (compiled_search c text); [|exact IH].
    simpl in Hne. destruct (random_choice_in draw Hne) as (x & Hx & _). congruence.
Qed.

Lemma random_choice_not_re_error {A : Type} (draw : nat) (seq : list A) :
  random_choice draw seq <> Raise ReError.
Proof.
  unfold random_choice. destruct seq as [|a seq]; [discriminate|].
  destruct (nth_error (a :: seq) (draw mod List.length (a :: seq))); discriminate.
Qed.

(** When the scan fails on a pattern, and only then, it raises
    [re.error]. *)
Lemma scan_re_error_iff items fallback text draw :
  scan items fallback text draw = Raise ReError
  <-> exists i p rs,
        nth_error items i = Some (p, rs)
        /\ re_compile p = None
        /\ forall j q rs0, j < i -> nth_error items j = Some (q, rs0) ->
                           re_search q text = Ok false.
Proof.
  induction items as [|[p0 rs0] items IH]; simpl.
  - split.
    + intros Hr. exfalso. exact (random_choice_not_re_error _ _ Hr).
    + intros (i & p & rs & Hn & _). destruct i; discriminate.
  - unfold re_search at 1.
    destruct (re_compile p0) as [c|] eqn:Hc; simpl.
    + destruct (compiled_search c text) eqn:Hs.
      * split.
        -- intros Hr. exfalso. exact (random_choice_not_re_error _ _ Hr).
        -- intros (i & p & rs & Hn & Hnone & Hb). exfalso.
           destruct i as [|i].
           ++ simpl in Hn. injection Hn as -> _. congruence.
           ++ specialize (Hb 0 p0 rs0 (Nat.lt_0_succ _) eq_refl).
              unfold re_search in Hb. rewrite Hc, Hs in Hb. discriminate.
      * rewrite IH. split.
        -- intros (i & p & rs & Hn & Hnone & Hb).
           exists (S i), p, rs. repeat split; try assumption.
           intros j q rs1 Hj Hnj. destruct j as [|j].
           ++ simpl in Hnj. injection Hnj as <- _.
              unfold re_search. now rewrite Hc, Hs.
           ++ simpl in Hnj. apply (Hb j q rs1); [lia|exact Hnj].
        -- intros (i & p & rs & Hn & Hnone & Hb).
           destruct i as [|i].
           ++ simpl in Hn. injection Hn as -> _. congruence.
           ++ exists i, p, rs. repeat split; try assumption.
              intros j q rs1 Hj Hnj. apply (Hb (S j) q rs1); [lia|exact Hnj].
    + split; [intros _|reflexivity].
      exists 0, p0, rs0. repeat split; try assumption.
      intros j q rs1 Hj. lia.
Qed.

End MatcherOrder.

(** X1.  Adding custom rules never changes which existing rule matches
    first: an input whose first matching rule is rule [i] of the table
    still has rule [i], with the same pattern, as its first match after
    any custom rules are assigned, and when no custom rule names that
    pattern the reply is the one the bot gave before. *)
Theorem custom_rules_keep_priority {E : ReEngine}
        (crs : list custom_rule) (bot : RuleBasedChatbot.t)
        (message : string) (i : nat) (pattern : string) (responses : list string) :
  RuleBasedChatbot.first_match (RuleBasedChatbot.rules bot) (str_lower message)
                               i pattern responses ->
  (exists responses',
      RuleBasedChatbot.first_match
        (RuleBasedChatbot.rules (apply_custom_rules crs bot))
        (str_lower message) i pattern responses')
  /\ (~ In pattern (map cr_pattern crs) ->
      forall draw,
        RuleBasedChatbot.get_response (apply_custom_rules crs bot) message draw
        = RuleBasedChatbot.get_response bot message draw).
Proof.
  intros Hfm.
  destruct (first_match_apply crs bot Hfm) as (rs' & Hfm' & Hsame).
  split; [eauto|].
  intros Hnot draw. specialize (Hsame Hnot). subst rs'.
  unfold RuleBasedChatbot.get_response.
  rewrite (scan_first_match _ draw Hfm'), (scan_first_match _ draw Hfm).
  reflexivity.
Qed.

Lemma custom_rules_keep_priority_witness :
  (exists responses',
      RuleBasedChatbot.first_match (E := PyRe.engine)
        (RuleBasedChatbot.rules
           (apply_custom_rules [CustomRule "\bthere\b" "Where?"]
                               (RuleBasedChatbot.init None)))
        (str_lower (ReEngine := PyRe.engine) "Hello there") 0
        "\b(hello|hi|hey)\b" responses')
  /\ (~ In "\b(hello|hi|hey)\b" (map cr_pattern [CustomRule "\bthere\b" "Where?"]) ->
      forall draw,
        RuleBasedChatbot.get_response (E := PyRe.engine)
          (apply_custom_rules [CustomRule "\bthere\b" "Where?"]
                              (RuleBasedChatbot.init None))
          "Hello there" draw
        = RuleBasedChatbot.get_response (E := PyRe.engine)
            (RuleBasedChatbot.init None) "Hello there" draw).
Proof.
  apply (@custom_rules_keep_priority PyRe.engine
           [CustomRule "\bthere\b" "Where?"] (RuleBasedChatbot.init None)
           "Hello there" 0 "\b(hello|hi|hey)\b"
           [ "Hello! How can I help you today?";
             "Hi there! What can I do for you?";
             "Hey! How's it going?" ]).
  split; [reflexivity|]. split; [vm_compute; reflexivity|].
  intros j q rs Hj. lia.
Defined.

(** X2.  Among the custom rules that share a pattern the last one added
    decides: after all the assignments the table maps that pattern to the
    single reply of the last custom rule carrying it. *)
Theorem last_custom_rule_wins
        (before after : list custom_rule) (pattern response : string)
        (bot : RuleBasedChatbot.t) :
  ~ In pattern (map cr_pattern after) ->
  Dict.get pattern
    (RuleBasedChatbot.rules
       (apply_custom_rules (before ++ CustomRule pattern response :: after) bot))
  = Some [response].
Proof.
  intros Hnot. unfold apply_custom_rules. rewrite fold_left_app. simpl.
  change (Dict.get pattern
            (RuleBasedChatbot.rules
               (apply_custom_rules after
                  (RuleBasedChatbot.set_rule pattern [response]
                     (apply_custom_rules before bot))))
          = Some [response]).
  rewrite apply_custom_rules_get_other by assumption.
  simpl. apply DictFacts.get_set_same.
Qed.

Lemma last_custom_rule_wins_witness :
  Dict.get "\bpizza\b"
    (RuleBasedChatbot.rules
       (apply_custom_rules
          ([CustomRule "\bpizza\b" "I love pizza!"]
           ++ CustomRule "\bpizza\b" "Pizza again?"
              :: [CustomRule "\bpasta\b" "Al dente."])
          (RuleBasedChatbot.init None)))
  = Some ["Pizza again?"].
Proof.
  apply (@last_custom_rule_wins [CustomRule "\bpizza\b" "I love pizza!"]
           [CustomRule "\bpasta\b" "Al dente."] "\bpizza\b" "Pizza again?"
           (RuleBasedChatbot.init None)).
  simpl. intros [Hc|[]]. discriminate.
Defined.

Lemma init_rules_extend (template : option string) :
  exists extra,
    RuleBasedChatbot.rules (RuleBasedChatbot.init template)
    = RuleBasedChatbot.default_rules ++ extra.
Proof.
  unfold RuleBasedChatbot.init, RuleBasedChatbot.init_from.
  destruct template as [tname|]; [|exists []; now rewrite app_nil_r].
  destruct (String.eqb tname ""); [exists []; now rewrite app_nil_r|].
  destruct (Dict.get tname CHATBOT_TEMPLATES) as [data|] eqn:Hg;
    [|exists []; now rewrite app_nil_r].
  exists (t_rules data). apply DictFacts.get_some_in in Hg. simpl in Hg.
  destruct Hg as [Hg|[Hg|[Hg|[]]]]; injection Hg as _ <-; reflexivity.
Qed.

(** X3.  A template only adds rules behind the base rules: an input whose
    first match is a base rule gets, under every template argument, the
    reply the bot without template gives. *)
Theorem templates_extend_base {E : ReEngine}
        (template : option string) (message : string)
        (i : nat) (pattern : string) (responses : list string) (draw : nat) :
  RuleBasedChatbot.first_match RuleBasedChatbot.default_rules
                               (str_lower message) i pattern responses ->
  RuleBasedChatbot.get_response (RuleBasedChatbot.init template) message draw
  = RuleBasedChatbot.get_response (RuleBasedChatbot.init None) message draw.
Proof.
  intros Hfm. unfold RuleBasedChatbot.get_response.
  destruct (init_rules_extend template) as [extra Hex]. rewrite Hex.
  rewrite (scan_first_match _ draw (first_match_app extra Hfm)).
  change (RuleBasedChatbot.rules (RuleBasedChatbot.init None))
    with RuleBasedChatbot.default_rules.
  now rewrite (scan_first_match _ draw Hfm).
Qed.

Lemma templates_extend_base_witness :
  RuleBasedChatbot.get_response (E := PyRe.engine)
    (RuleBasedChatbot.init (Some "restaurant_bot")) "Thanks a lot" 1
  = RuleBasedChatbot.get_response (E := PyRe.engine)
      (RuleBasedChatbot.init None) "Thanks a lot" 1.
Proof.
  apply (@templates_extend_base PyRe.engine (Some "restaurant_bot")
           "Thanks a lot" 3 "\b(thanks|thank you)\b"
           [ "You're welcome!"; "Happy to help!"; "No problem!" ] 1).
  split; [reflexivity|]. split; [vm_compute; reflexivity|].
  intros j q rs Hj Hn.
  destruct j as [|[|[|j]]]; [| | |lia];
    injection Hn as <- <-; vm_compute; reflexivity.
Defined.

(** X4.  The table of a bot built with a template lists the base
    patterns first, in the order of the base table, and after them the
    patterns only the template has, in the template's order; a template
    pattern the base already has stays at its base position. *)
Theorem template_table_order
        (templates : Dict.t template_data) (base : Dict.t (list string))
        (tname : string) (data : template_data) :
  tname <> "" ->
  Dict.get tname templates = Some data ->
  NoDup (Dict.keys (t_rules data)) ->
  Dict.keys (RuleBasedChatbot.rules
               (RuleBasedChatbot.init_from templates base (Some tname)))
  = Dict.keys base
    ++ filter (fun k => negb (existsb (String.eqb k) (Dict.keys base)))
              (Dict.keys (t_rules data)).
Proof.
  intros Hname Htpl Hnd. unfold RuleBasedChatbot.init_from.
  destruct (String.eqb_spec tname "") as [->|_]; [congruence|].
  rewrite Htpl. simpl. now apply keys_merge.
Qed.

Lemma template_table_order_witness :
  Dict.keys
    (RuleBasedChatbot.rules
       (RuleBasedChatbot.init_from
          [("pack", Template "Pack" "An overlay"
                             [("R", ["r"]); ("P", ["C"])] "helpful")]
          [("P", ["A"; "B"]); ("Q", ["q"])] (Some "pack")))
  = Dict.keys [("P", ["A"; "B"]); ("Q", ["q"])]
    ++ filter (fun k => negb (existsb (String.eqb k)
                                      (Dict.keys [("P", ["A"; "B"]); ("Q", ["q"])])))
              (Dict.keys [("R", ["r"]); ("P", ["C"])]).
Proof.
  apply (@template_table_order
           [("pack", Template "Pack" "An overlay"
                              [("R", ["r"]); ("P", ["C"])] "helpful")]
           [("P", ["A"; "B"]); ("Q", ["q"])] "pack"
           (Template "Pack" "An overlay" [("R", ["r"]); ("P", ["C"])] "helpful")).
  - discriminate.
  - reflexivity.
  - simpl. repeat constructor; simpl; intuition discriminate.
Defined.

(** X5.  [random.choice] is never given an empty list: whatever the
    template, the custom rules, the input and the draw, [get_response]
    does not raise [IndexError]. *)
Theorem choice_never_empty {E : ReEngine}
        (template : option string) (crs : list custom_rule)
        (message : string) (draw : nat) :
  RuleBasedChatbot.get_response
    (apply_custom_rules crs (RuleBasedChatbot.init template)) message draw
  <> Raise IndexError.
Proof.
  unfold RuleBasedChatbot.get_response. apply scan_no_index_error.
  - apply apply_custom_rules_nonempty, init_nonempty.
  - rewrite apply_custom_rules_default_responses.
    unfold RuleBasedChatbot.init. rewrite init_default_responses. discriminate.
Qed.

(** X6.  [get_response] raises [re.error] exactly when the scan reaches a
    pattern that does not compile: some rule's pattern fails to compile
    and the pattern of every rule before it is searched for in the
    lower-cased input and not found. *)
Theorem re_error_iff_reached {E : ReEngine}
        (bot : RuleBasedChatbot.t) (message : string) (draw : nat) :
  RuleBasedChatbot.get_response bot message draw = Raise ReError
  <-> exists i pattern responses,
        nth_error (RuleBasedChatbot.rules bot) i = Some (pattern, responses)
        /\ re_compile pattern = None
        /\ forall j q rs, j < i ->
             nth_error (RuleBasedChatbot.rules bot) j = Some (q, rs) ->
             re_search q (str_lower message) = Ok false.
Proof.
  unfold RuleBasedChatbot.get_response. apply scan_re_error_iff.
Qed.

(** ** Turns and sessions *)

Section SessionFacts.
Context {E : ReEngine} {B : Backend}.

(** The three ways a turn can end. *)
Lemma submit_turn_cases api_key s user_input draw :
  (user_input = ""
   /\ submit_turn api_key s user_input draw = Turn s [] None)
  \/ (user_input <> ""
      /\ exists reply sent,
           submit_turn api_key s user_input draw
           = Turn (append_message (Message "assistant" reply)
                     (append_message (Message "user" user_input) s))
                  sent None)
  \/ (user_input <> ""
      /\ current_bot s = "rule_based"
      /\ submit_turn api_key s user_input draw
         = Turn (append_message (Message "user" user_input) s) [] (Some ReError)).
Proof.
  unfold submit_turn, truthy.
  destruct (String.eqb_spec user_input "") as [->|Hne]; [left; auto|].
  right. cbn [negb]. unfold respond.
  cbn [append_message current_bot custom_rules bot_personality ss_messages].
  destruct (String.eqb_spec (current_bot s) "rule_based") as [Hrb|Hrb].
  - pose proof (@scan_no_index_error E
                  (RuleBasedChatbot.rules
                     (apply_custom_rules (custom_rules s)
                                         (RuleBasedChatbot.init None)))
                  (RuleBasedChatbot.default_responses
                     (apply_custom_rules (custom_rules s)
                                         (RuleBasedChatbot.init None)))
                  (str_lower user_input) draw
                  (apply_custom_rules_nonempty _ _ (init_nonempty None))) as Hno.
    rewrite apply_custom_rules_default_responses in Hno.
    specialize (Hno ltac:(discriminate)).
    unfold RuleBasedChatbot.get_response.
    rewrite apply_custom_rules_default_responses.
    destruct (RuleBasedChatbot.scan _ _ _ draw) as [reply|e]; cbn [bind].
    + left. split; [assumption|]. eauto.
    + right. destruct e; [|congruence]. auto.
  - left. split; [assumption|].
    destruct (String.eqb (current_bot s) "ai_powered").
    + destruct (AIChatbot.get_response _ user_input _) as [reply sent]. eauto.
    + eauto.
Qed.

Lemma count_role_snoc r (msgs : list chat_message) (m : chat_message) :
  count_role r (msgs ++ [m])
  = count_role r msgs + (if String.eqb (role m) r then 1 else 0).
Proof.
  unfold count_role. rewrite filter_app, length_app. simpl.
  destruct (String.eqb (role m) r); reflexivity.
Qed.

Lemma append_user_ok (s : session_state) (text : string) :
  session_ok s -> session_ok (append_message (Message "user" text) s).
Proof.
  intros (Hroles & Hcount & Hrules). repeat split; simpl.
  - apply Forall_app. split; [assumption|]. repeat constructor.
  - rewrite !count_role_snoc. simpl. lia.
  - assumption.
Qed.

Lemma append_reply_ok (s : session_state) (text reply : string) :
  session_ok s ->
  session_ok (append_message (Message "assistant" reply)
                (append_message (Message "user" text) s)).
Proof.
  intros (Hroles & Hcount & Hrules). repeat split; simpl.
  - apply Forall_app. split; [|repeat constructor].
    apply Forall_app. split; [assumption|]. repeat constructor.
  - rewrite !count_role_snoc. simpl. lia.
  - assumption.
Qed.

Lemma handle_ok (s : session_state) (ev : event) :
  session_ok s -> session_ok (handle s ev).
Proof.
  intros Hok. destruct ev as [bt|p|clicked pattern response| |key text draw]; simpl.
  - exact Hok.
  - exact Hok.
  - destruct Hok as (Hroles & Hcount & Hrules).
    unfold add_rule, truthy.
    destruct clicked; simpl; [|repeat split; assumption].
    destruct (String.eqb_spec pattern ""); simpl; [repeat split; assumption|].
    destruct (String.eqb_spec response ""); simpl; [repeat split; assumption|].
    repeat split; simpl; try assumption.
    apply Forall_app. split; [assumption|]. repeat constructor; assumption.
  - destruct Hok as (_ & _ & Hrules). repeat split; simpl; auto.
  - destruct (submit_turn_cases key s text draw)
      as [(_ & ->)|[(_ & reply & sent & ->)|(_ & _ & ->)]]; simpl.
    + exact Hok.
    + now apply append_reply_ok.
    + now apply append_user_ok.
Qed.

Lemma fold_handle_ok (events : list event) (s : session_state) :
  session_ok s -> session_ok (fold_left handle events s).
Proof.
  revert s. induction events as [|ev events IH]; intros s Hok; simpl.
  - exact Hok.
  - apply IH, handle_ok, Hok.
Qed.

Lemma initial_state_ok : session_ok initial_state.
Proof.
  repeat split; simpl; auto.
Qed.

Lemma filter_all {A : Type} (f : A -> bool) (l : list A) :
  Forall (fun x => f x = true) l -> filter f l = l.
Proof.
  induction 1 as [|x l Hx _ IH]; simpl; [reflexivity|].
  now rewrite Hx, IH.
Qed.

(** With the two chat roles only, every message counts as a user or as an
    assistant message. *)
Lemma count_roles_total (msgs : list chat_message) :
  Forall (fun m => chat_role m = true) msgs ->
  List.length msgs = count_role "user" msgs + count_role "assistant" msgs.
Proof.
  unfold count_role. induction 1 as [|m msgs Hm _ IH]; simpl; [reflexivity|].
  unfold chat_role in Hm. apply orb_true_iff in Hm.
  destruct Hm as [Hm|Hm]; apply String.eqb_eq in Hm; rewrite Hm; simpl; lia.
Qed.

End SessionFacts.


(** X9.  A personality that is not a key of the prompt table gets the
    prompt of "helpful": the bot answers, and asks the backend, exactly
    as a bot built with the personality "helpful". *)
Theorem unknown_personality_is_helpful {B : Backend}
        (api_key : option string) (personality message : string)
        (context : option (list chat_message)) :
  Dict.get personality AIChatbot.prompts = None ->
  AIChatbot.get_response (AIChatbot.init api_key personality) message context
  = AIChatbot.get_response (AIChatbot.init api_key "helpful") message context.
Proof.
  intros Hnone.
  assert (Hreq : AIChatbot.request_of personality message context
                 = AIChatbot.request_of "helpful" message context).
  { unfold AIChatbot.request_of, AIChatbot.system_prompt_of, Dict.get_default.
    rewrite Hnone. reflexivity. }
  destruct (AIChatbot.configured api_key) eqn:Hc.
  - destruct api_key as [key|]; [|discriminate].
    rewrite !get_response_configured by assumption. now rewrite Hreq.
  - unfold AIChatbot.get_response. rewrite !init_client, Hc. reflexivity.
Qed.

Lemma unknown_personality_is_helpful_witness :
  AIChatbot.get_response (B := echo)
    (AIChatbot.init (Some "sk-live-1234") "grumpy") "Good morning"
    (Some [Message "user" "Hi"; Message "assistant" "Hello!"])
  = AIChatbot.get_response (B := echo)
      (AIChatbot.init (Some "sk-live-1234") "helpful") "Good morning"
      (Some [Message "user" "Hi"; Message "assistant" "Hello!"]).
Proof.
  apply (@unknown_personality_is_helpful echo (Some "sk-live-1234") "grumpy"
           "Good morning"
           (Some [Message "user" "Hi"; Message "assistant" "Hello!"])).
  reflexivity.
Defined.

(** X10.  Every session the events can produce is well formed: its
    messages carry the roles "user" and "assistant" only, it has at most
    as many assistant messages as user messages, and none of its custom
    rules has an empty pattern or an empty response. *)
Theorem sessions_stay_well_formed {E : ReEngine} {B : Backend}
        (events : list event) :
  session_ok (run events).
Proof.
  unfold run. generalize initial_state_ok. generalize initial_state.
  induction events as [|ev events IH]; intros s Hok; simpl.
  - exact Hok.
  - apply IH. apply handle_ok. exact Hok.
Qed.

(** X11.  The numbers of the statistics panel add up in every session the
    events can produce: the total is the number of user messages plus the
    number of bot messages, and the bot never has more messages than the
    user. *)
Theorem chat_stats_add_up {E : ReEngine} {B : Backend} (events : list event) :
  fst (fst (chat_stats (ss_messages (run events))))
  = snd (fst (chat_stats (ss_messages (run events))))
    + snd (chat_stats (ss_messages (run events)))
  /\ snd (chat_stats (ss_messages (run events)))
     <= snd (fst (chat_stats (ss_messages (run events)))).
Proof.
  destruct (fold_handle_ok events initial_state_ok) as (Hroles & Hcount & _).
  fold (run events) in Hroles, Hcount.
  unfold chat_stats. cbn [fst snd].
  split.
  - exact (count_roles_total Hroles).
  - exact Hcount.
Qed.

(** X12.  In every session the events can produce, the role test of the
    context loop drops nothing: the context handed to the generative bot
    is the last ten messages of the conversation, the message just
    appended included. *)
Theorem context_filter_keeps_all {E : ReEngine} {B : Backend}
        (events : list event) (user_input : string) :
  build_context (ss_messages (run events) ++ [Message "user" user_input])
  = last_n 10 (ss_messages (run events) ++ [Message "user" user_input]).
Proof.
  destruct (fold_handle_ok events initial_state_ok) as (Hroles & _ & _).
  fold (run events) in Hroles.
  unfold build_context. apply filter_all.
  assert (Hall : Forall (fun m => chat_role m = true)
                        (ss_messages (run events) ++ [Message "user" user_input])).
  { apply Forall_app. split; [assumption|]. repeat constructor. }
  rewrite Forall_forall in *. intros m Hm.
  apply Hall. exact (last_n_incl 10 _ m Hm).
Qed.

(** X13.  When the backend answers, the reply of a generative turn is the
    content of the first choice, whatever other choices follow: the turn
    sends one request, raises nothing and appends the user message and
    that content as the assistant message. *)
Theorem first_choice_is_the_reply {E : ReEngine} {B : Backend}
        (key : string) (s : session_state) (user_input : string) (draw : nat)
        (reply : string) (rest : list string) :
  user_input <> "" ->
  current_bot s = "ai_powered" ->
  AIChatbot.configured (Some key) = true ->
  create key
    (AIChatbot.request_of (bot_personality s) user_input
       (Some (build_context (ss_messages s ++ [Message "user" user_input]))))
  = Completion (reply :: rest) ->
  submit_turn (Some key) s user_input draw
  = Turn (append_message (Message "assistant" reply)
            (append_message (Message "user" user_input) s))
         [AIChatbot.request_of (bot_personality s) user_input
            (Some (build_context (ss_messages s ++ [Message "user" user_input])))]
         None.
Proof.
  intros Hin Hmode Hkey Hanswer. unfold submit_turn, truthy.
  destruct (String.eqb_spec user_input ""); [congruence|]. cbn [negb].
  unfold respond.
  cbn [append_message current_bot custom_rules bot_personality ss_messages].
  rewrite Hmode. cbn [String.eqb Ascii.eqb Bool.eqb andb].
  rewrite get_response_configured by assumption.
  rewrite Hanswer. reflexivity.
Qed.

Lemma first_choice_is_the_reply_witness :
  submit_turn (E := PyRe.engine) (B := echo) (Some "sk-live-1234")
    (Session [] "ai_powered" [] "helpful") "hello" 0
  = Turn (append_message (Message "assistant" "hello")
            (append_message (Message "user" "hello")
               (Session [] "ai_powered" [] "helpful")))
         [AIChatbot.request_of
            (bot_personality (Session [] "ai_powered" [] "helpful")) "hello"
            (Some (build_context
                     (ss_messages (Session [] "ai_powered" [] "helpful")
                      ++ [Message "user" "hello"])))]
         None.
Proof.
  apply (@first_choice_is_the_reply PyRe.engine echo "sk-live-1234"
           (Session [] "ai_powered" [] "helpful") "hello" 0 "hello" []).
  - discriminate.
  - reflexivity.
  - reflexivity.
  - reflexivity.
Defined.

(** X14.  A configured bot called with a context sends one request: the
    system prompt of its personality, then the context when it has at
    most ten entries and its last ten entries, in order, when it has
    more, then the new message as a user entry, with the fixed model,
    token limit and temperature.  No context and an empty context give
    the same request. *)
Theorem responder_sends_last_ten {B : Backend}
        (key personality message : string)
        (context : option (list chat_message)) :
  AIChatbot.configured (Some key) = true ->
  snd (AIChatbot.get_response (AIChatbot.init (Some key) personality)
                              message context)
  = [ Request "gpt-5"
        (Message "system" (AIChatbot.system_prompt_of personality)
         :: skipn (List.length (match context with Some c => c | None => [] end) - 10)
                  (match context with Some c => c | None => [] end)
         ++ [Message "user" message])
        200 (7 # 10)%Q ].
Proof.
  intros Hkey. rewrite get_response_calls, Hkey.
  unfold AIChatbot.request_of. rewrite build_messages_shape. reflexivity.
Qed.

Lemma responder_sends_last_ten_witness :
  snd (AIChatbot.get_response (B := offline)
         (AIChatbot.init (Some "sk-live-1234") "funny") "next"
         (Some (map (fun n => Message "user" (String (ascii_of_nat (65 + n)) ""))
                    (seq 0 12))))
  = [ Request "gpt-5"
        (Message "system"
           "You are a witty and humorous assistant. Add appropriate humor to your responses."
         :: map (fun n => Message "user" (String (ascii_of_nat (65 + n)) ""))
                (seq 2 10)
         ++ [Message "user" "next"])
        200 (7 # 10)%Q ].
Proof.
  apply (@responder_sends_last_ten offline "sk-live-1234" "funny" "next"
           (Some (map (fun n => Message "user" (String (ascii_of_nat (65 + n)) ""))
                      (seq 0 12)))).
  reflexivity.
Defined.

Lemma rule_based_reply_witness :
  exists reply,
    raised (submit_turn (E := PyRe.engine) (B := offline) None
              (add_rule true "\bpizza\b" "I love pizza!" initial_state)
              "Any pizza today?" 0) = None
    /\ ss_messages
         (state_after
            (submit_turn (E := PyRe.engine) (B := offline) None
               (add_rule true "\bpizza\b" "I love pizza!" initial_state)
               "Any pizza today?" 0))
       = ss_messages (add_rule true "\bpizza\b" "I love pizza!" initial_state)
         ++ [Message "user" "Any pizza today?"; Message "assistant" reply].
Proof.
  apply (@rule_based_reply PyRe.engine offline None
           (add_rule true "\bpizza\b" "I love pizza!" initial_state)
           "Any pizza today?" 0).
  - discriminate.
  - reflexivity.
  - repeat constructor; discriminate.
Defined.



